(** * DocuExplore (OpenRag): PDF upload, summary, title, related articles, chat

    A shallow embedding of the Streamlit script [src/code_1.py].

    The script talks to three outside parties: the Gemini client ([genai]),
    the Tavily search client and the Streamlit runtime.  Their answers are
    not under the script's control, so they are taken from an environment of
    oracles ([Env]); the k-th call of a service receives the k-th answer of
    that service's oracle.  Everything the script does to the outside is
    recorded in a trace of events, newest first.  Python exceptions are an
    explicit outcome, and the one unbounded loop of the program runs on
    fuel. *)

From stdpp Require Import base numbers strings list gmap infinite.
From Stdlib Require Import Ascii String ZArith Lia.

Open Scope string_scope.
Open Scope Z_scope.

(** ** Python strings: [str.strip] *)

Module PyStr.

(** Code points below 256 for which Python's [str.isspace] answers true:
    TAB, LF, VT, FF, CR, the separators FS, GS, RS, US, space, NEL and
    the no-break space. *)
Definition isspace (c : ascii) : bool :=
  let n := nat_of_ascii c in
  ((9 <=? n)%nat && (n <=? 13)%nat)
  || ((28 <=? n)%nat && (n <=? 32)%nat)
  || (n =? 133)%nat || (n =? 160)%nat.

Definition is_empty (s : string) : bool :=
  match s with EmptyString => true | String _ _ => false end.

Fixpoint lstrip (s : string) : string :=
  match s with
  | EmptyString => EmptyString
  | String c r => if isspace c then lstrip r else s
  end.

Fixpoint rstrip (s : string) : string :=
  match s with
  | EmptyString => EmptyString
  | String c r =>
      let r' := rstrip r in
      if is_empty r' && isspace c then EmptyString else String c r'
  end.

(** [s.strip()] *)
Definition strip (s : string) : string := rstrip (lstrip s).

(** Every character of the string is whitespace (true of the empty string). *)
Fixpoint all_space (s : string) : bool :=
  match s with
  | EmptyString => true
  | String c r => isspace c && all_space r
  end.

(** Python truthiness of a [str]. *)
Definition truthy (s : string) : bool := negb (is_empty s).

Definition nl : string := String (ascii_of_nat 10) EmptyString.

End PyStr.

(** ** Exceptions and outcomes *)

(** The classes of [Exception] the program tells apart or raises itself.
    [HTTPError] is [requests.exceptions.HTTPError]; [OtherException] is any
    other subclass of [Exception]. *)
Inductive exn_class := HTTPError | AttributeError | FileNotFoundError | OtherException.

Record exn := mk_exn { exn_cls : exn_class; exn_msg : string }.

Definition is_http_error (e : exn) : bool :=
  match exn_cls e with HTTPError => true | _ => false end.

(** What a call into a library gives back. *)
Inductive outcome (A : Type) :=
| Returns (a : A)
| Raises (e : exn).
Arguments Returns {A} a.
Arguments Raises {A} e.

(** What running a piece of the program gives: a value, an exception on its
    way up, or no answer within the fuel given to an unbounded loop. *)
Inductive result (A : Type) :=
| Val (a : A)
| Exc (e : exn)
| Diverge.
Arguments Val {A} a.
Arguments Exc {A} e.
Arguments Diverge {A}.

Definition of_outcome {A} (o : outcome A) : result A :=
  match o with Returns a => Val a | Raises e => Exc e end.

(** ** Data of the program *)

(** A [genai] file handle: [file.name] and [file.state.name]. *)
Record File := mk_File { name : string; state_name : string }.

(** A generation response; reading [response.text] may itself raise. *)
Record Response := mk_Response { text : outcome string }.

(** Streamlit's [UploadedFile]: its name and [getvalue()]. *)
Record UploadedFile := mk_UploadedFile { uf_name : string; getvalue : list Byte.byte }.

(** One entry of [results] in a Tavily payload, read with [.get]: a key is
    absent or holds a string, as in the service's schema (a key that holds
    [None] is outside the model). *)
Record Article := mk_Article { art_title : option string; art_url : option string }.

(** The Tavily payload, a dict read with [.get('results', [])] and
    [.get('answer')]: [results] is absent or a list and [answer] is absent or
    a string, as in the service's schema (a key that holds [None] is outside
    the model). *)
Record Payload := mk_Payload { results : option (list Article); answer : option string }.

(** A part of a chat turn: the uploaded file, a text, or the content of a
    reply. *)
Inductive part := PFile (f : File) | PText (s : string) | PReply (r : Response).

Record Turn := mk_Turn { turn_role : string; parts : list part }.

(** A [ChatSession]: the client keeps the history it was started with and
    adds the question and the reply of every round trip that succeeds. *)
Record ChatSession := mk_ChatSession { history : list Turn }.

(** An entry of [st.session_state.chat_history]. *)
Record Message := mk_Message { role : string; content : string }.

(** [st.session_state]: each key is absent or holds a value.  The value of
    [search_results] may be [None] (the inner option). *)
Record SessionState := mk_SessionState {
  chat_history : option (list Message);
  gemini_file : option File;
  chat_session : option ChatSession;
  pdf_summary : option string;
  pdf_title : option string;
  search_results : option (option Payload)
}.

Definition empty_session : SessionState :=
  mk_SessionState None None None None None None.

(** ** Events *)

Inductive log_record :=
| AttemptingSearch (attempt : Z)
| SearchSuccessful (response : Payload)
| HttpErrorInSearch (attempt : Z) (e : exn)
| UnexpectedErrorInSearch (e : exn)
| ErrorGeneratingTitle (e : exn).

(** The two avatars of [st.chat_message]: the person and the robot. *)
Inductive avatar := AvatarUser | AvatarAssistant.

Inductive widget :=
| Spinner (label : string)
| Subheader (label : string)
| StError (msg : string)
| StSuccess (msg : string)
| StInfo (msg : string)
| StWarning (msg : string)
| StWrite (msg : string)
| Expander (label : string)
| ChatMessage (role : string) (avatar : avatar) (body : string).

Inductive event :=
| EvTmpWrite (path : string) (data : list Byte.byte)
| EvUploadFile (path : string) (mime_type : string)
| EvUnlink (path : string)
| EvGetFile (file_name : string)
| EvSleep (seconds : Z)
| EvGenerate (prompt : string)
| EvStartChat (seed : list Turn)
| EvSendMessage (msg : string)
| EvSearch (query : string)
| EvLogInfo (r : log_record)
| EvLogError (r : log_record)
| EvUi (w : widget).

Inductive service := SvUpload | SvGetFile | SvGenerate | SvSend | SvSearch.

Definition service_of (e : event) : option service :=
  match e with
  | EvUploadFile _ _ => Some SvUpload
  | EvGetFile _ => Some SvGetFile
  | EvGenerate _ => Some SvGenerate
  | EvSendMessage _ => Some SvSend
  | EvSearch _ => Some SvSearch
  | _ => None
  end.

Definition service_eqb (a b : service) : bool :=
  match a, b with
  | SvUpload, SvUpload | SvGetFile, SvGetFile | SvGenerate, SvGenerate
  | SvSend, SvSend | SvSearch, SvSearch => true
  | _, _ => false
  end.

Definition is_call (sv : service) (e : event) : bool :=
  match service_of e with Some sv' => service_eqb sv sv' | None => false end.

(** Number of calls made to a service so far. *)
Fixpoint calls (sv : service) (tr : list event) : nat :=
  match tr with
  | [] => 0%nat
  | e :: tr' => if is_call sv e then S (calls sv tr') else calls sv tr'
  end.

(** ** The world and the monad of the program *)

(** The answers of the outside: the k-th call of a service (counted from 0)
    with the given arguments gets the k-th answer. *)
Record Env := mk_Env {
  genai_upload_file : nat -> list Byte.byte -> outcome File;
  genai_get_file : nat -> string -> outcome File;
  model_generate_content : nat -> string -> outcome Response;
  chat_send_message : nat -> ChatSession -> string -> outcome Response;
  tavily_client_search : nat -> string -> outcome Payload
}.

(** The mutable world: the temporary directory, the trace (newest event
    first) and [st.session_state]. *)
Record State := mk_State {
  fs : gmap string (list Byte.byte);
  trace : list event;
  session : SessionState
}.

Definition M (A : Type) : Type := State -> result A * State.

Global Instance M_ret : MRet M := fun A a s => (Val a, s).

Global Instance M_bind : MBind M := fun A B f m s =>
  match m s with
  | (Val a, s') => f a s'
  | (Exc e, s') => (Exc e, s')
  | (Diverge, s') => (Diverge, s')
  end.

Definition diverge {A} : M A := fun s => (Diverge, s).

(** [try: m except Exception as e: h e] *)
Definition try_except {A} (m : M A) (h : exn -> M A) : M A := fun s =>
  match m s with
  | (Exc e, s') => h e s'
  | r => r
  end.

(** [try: m finally: fin].  The cleanup runs after a value and after an
    exception; an exception of the cleanup replaces the pending outcome. *)
Definition try_finally {A} (m : M A) (fin : M unit) : M A := fun s =>
  match m s with
  | (Diverge, s') => (Diverge, s')
  | (r, s') =>
      match fin s' with
      | (Val _, s'') => (r, s'')
      | (Exc e, s'') => (Exc e, s'')
      | (Diverge, s'') => (Diverge, s'')
      end
  end.

Definition emit (e : event) : M unit := fun s =>
  (Val tt, mk_State (fs s) (e :: trace s) (session s)).

Definition get_session : M SessionState := fun s => (Val (session s), s).

(** Call a service: take the answer of its oracle at the number of calls
    made so far, and record the call. *)
Definition call {A} (sv : service) (ev : event) (oracle : nat -> outcome A) : M A :=
  fun s =>
    (of_outcome (oracle (calls sv (trace s))),
     mk_State (fs s) (ev :: trace s) (session s)).

(** [time.sleep(seconds)], for the whole numbers of seconds it accepts (up to
    [2^63] nanoseconds, see [time_sleep_max] below). *)
Definition time_sleep (seconds : Z) : M unit := emit (EvSleep seconds).
Definition logging_info (r : log_record) : M unit := emit (EvLogInfo r).
Definition logging_error (r : log_record) : M unit := emit (EvLogError r).
Definition st (w : widget) : M unit := emit (EvUi w).

(** ** The functions of [src/code_1.py] *)

(** What the body of a [for] loop tells the loop: [return v] or go on. *)
Inductive flow (A : Type) := Return (a : A) | Continue.
Arguments Return {A} a.
Arguments Continue {A}.

Section Program.

Variable env : Env.

(** [with tempfile.NamedTemporaryFile(delete=False, suffix=".pdf") as tmp_file:
      tmp_file.write(data); tmp_file_path = tmp_file.name].
    The name the library picks is some path not in use; which one is of no
    consequence, and the model takes [fresh]. *)
Definition named_temporary_file_write (data : list Byte.byte) : M string := fun s =>
  let tmp_file_path := fresh (dom (fs s)) in
  (Val tmp_file_path,
   mk_State (<[tmp_file_path := data]> (fs s))
            (EvTmpWrite tmp_file_path data :: trace s) (session s)).

(** [genai.upload_file(path, mime_type=...)]: reads the file at [path] and
    sends it. *)
Definition genai_upload (path mime_type : string) : M File := fun s =>
  match fs s !! path with
  | Some data =>
      call SvUpload (EvUploadFile path mime_type)
           (fun k => genai_upload_file env k data) s
  | None => (Exc (mk_exn FileNotFoundError path), s)
  end.

(** [os.unlink(path)] *)
Definition os_unlink (path : string) : M unit := fun s =>
  match fs s !! path with
  | Some _ =>
      (Val tt, mk_State (delete path (fs s)) (EvUnlink path :: trace s) (session s))
  | None => (Exc (mk_exn FileNotFoundError path), s)
  end.

Definition upload_to_gemini (uploaded_file : UploadedFile) : M File :=
  tmp_file_path ← named_temporary_file_write (getvalue uploaded_file);
  try_finally
    (uploaded_file ← genai_upload tmp_file_path "application/pdf";
     mret uploaded_file)
    (os_unlink tmp_file_path).

Definition genai_get (file_name : string) : M File :=
  call SvGetFile (EvGetFile file_name) (fun k => genai_get_file env k file_name).

(** [while file_status.state.name == "PROCESSING": time.sleep(2);
      file_status = genai.get_file(file.name)].
    One unit of fuel pays for one turn of the loop. *)
Fixpoint wait_loop (fuel : nat) (file file_status : File) : M File :=
  if (state_name file_status =? "PROCESSING")%string then
    match fuel with
    | O => diverge
    | S fuel' =>
        time_sleep 2;;
        file_status ← genai_get (name file);
        wait_loop fuel' file file_status
    end
  else mret file_status.

Definition wait_for_file_active (fuel : nat) (file : File) : M bool :=
  st (Spinner "Processing file...");;
  file_status ← genai_get (name file);
  file_status ← wait_loop fuel file file_status;
  if negb (state_name file_status =? "ACTIVE")%string then
    st (StError ("File " +:+ name file +:+ " failed to process"));;
    mret false
  else mret true.

Definition response_text (response : Response) : M string :=
  fun s => (of_outcome (text response), s).

Definition title_prompt (summary : string) : string :=
  "Given the following summary of a document, generate a concise and descriptive title (maximum 5 words):"
  +:+ PyStr.nl +:+ PyStr.nl +:+ summary +:+ PyStr.nl +:+ PyStr.nl +:+ "Title:".

Definition generate_content (prompt : string) : M Response :=
  call SvGenerate (EvGenerate prompt) (fun k => model_generate_content env k prompt).

Definition generate_title_from_summary (summary : string) : M string :=
  let prompt := title_prompt summary in
  try_except
    (response ← generate_content prompt;
     t ← response_text response;
     mret (PyStr.strip t))
    (fun e =>
       logging_error (ErrorGeneratingTitle e);;
       mret "Untitled Document").

(** [range(n)] *)
Definition range (n : Z) : list Z := map Z.of_nat (seq 0 (Z.to_nat n)).

(** [tavily_client.search(query=query, search_depth="advanced",
      include_images=False, include_answer=True, max_results=5)] *)
Definition tavily_client_call (query : string) : M Payload :=
  call SvSearch (EvSearch query) (fun k => tavily_client_search env k query).

(** The body of [for attempt in range(max_retries)]. *)
Definition search_attempt (query : string) (max_retries attempt : Z)
  : M (flow (option Payload)) :=
  try_except
    (logging_info (AttemptingSearch (attempt + 1));;
     response ← tavily_client_call query;
     logging_info (SearchSuccessful response);;
     mret (Return (Some response)))
    (fun e =>
       if is_http_error e then
         logging_error (HttpErrorInSearch (attempt + 1) e);;
         if attempt =? max_retries - 1 then mret (Return None)
         else time_sleep (2 ^ attempt);; mret Continue
       else
         logging_error (UnexpectedErrorInSearch e);;
         mret (Return None)).

(** The [for] loop; running off its end gives the function's implicit
    [None]. *)
Fixpoint for_attempts (body : Z -> M (flow (option Payload))) (attempts : list Z)
  : M (option Payload) :=
  match attempts with
  | [] => mret None
  | attempt :: rest =>
      r ← body attempt;
      match r with
      | Return v => mret v
      | Continue => for_attempts body rest
      end
  end.

Definition tavily_search (query : string) (max_retries : Z) : M (option Payload) :=
  if negb (PyStr.truthy (PyStr.strip query)) then mret None
  else for_attempts (search_attempt query max_retries) (range max_retries).

(** *** The script body, rerun by Streamlit on every interaction *)

Definition modify_session (f : SessionState -> SessionState) : M unit := fun s =>
  (Val tt, mk_State (fs s) (trace s) (f (session s))).

Definition set_chat_history (v : list Message) (ss : SessionState) : SessionState :=
  mk_SessionState (Some v) (gemini_file ss) (chat_session ss)
                  (pdf_summary ss) (pdf_title ss) (search_results ss).

Definition set_gemini_file (v : File) (ss : SessionState) : SessionState :=
  mk_SessionState (chat_history ss) (Some v) (chat_session ss)
                  (pdf_summary ss) (pdf_title ss) (search_results ss).

Definition set_chat_session (v : ChatSession) (ss : SessionState) : SessionState :=
  mk_SessionState (chat_history ss) (gemini_file ss) (Some v)
                  (pdf_summary ss) (pdf_title ss) (search_results ss).

Definition set_pdf_summary (v : string) (ss : SessionState) : SessionState :=
  mk_SessionState (chat_history ss) (gemini_file ss) (chat_session ss)
                  (Some v) (pdf_title ss) (search_results ss).

Definition set_pdf_title (v : string) (ss : SessionState) : SessionState :=
  mk_SessionState (chat_history ss) (gemini_file ss) (chat_session ss)
                  (pdf_summary ss) (Some v) (search_results ss).

Definition set_search_results (v : option Payload) (ss : SessionState) : SessionState :=
  mk_SessionState (chat_history ss) (gemini_file ss) (chat_session ss)
                  (pdf_summary ss) (pdf_title ss) (Some v).

(** [st.session_state.key]: reading a key that is absent raises
    [AttributeError]. *)
Definition session_attr {A} (key : string) (get : SessionState -> option A) : M A :=
  fun s =>
    match get (session s) with
    | Some v => (Val v, s)
    | None => (Exc (mk_exn AttributeError key), s)
    end.

(** [model.start_chat(history=seed)] *)
Definition start_chat (seed : list Turn) : M ChatSession :=
  emit (EvStartChat seed);; mret (mk_ChatSession seed).

(** [st.session_state.chat_session.send_message(msg)].  The session object
    lives in [st.session_state]; a round trip that succeeds adds the
    question and the reply to its history. *)
Definition chat_session_send_message (msg : string) : M Response :=
  cs ← session_attr "chat_session" chat_session;
  response ← call SvSend (EvSendMessage msg) (fun k => chat_send_message env k cs msg);
  modify_session
    (set_chat_session
       (mk_ChatSession
          (history cs ++ [mk_Turn "user" [PText msg]; mk_Turn "model" [PReply response]])));;
  mret response.

(** [st.session_state.chat_history.append(m)] *)
Definition chat_history_append (m : Message) : M unit :=
  h ← session_attr "chat_history" chat_history;
  modify_session (set_chat_history (h ++ [m])).

Fixpoint for_each {A} (l : list A) (body : A -> M unit) : M unit :=
  match l with
  | [] => mret tt
  | x :: l' => body x;; for_each l' body
  end.

Definition seed_prompt : string :=
  "What is the main topic or subject of this PDF? Provide a brief summary in 2-3 sentences.".

(** Lines 167-188: the body of [if 'gemini_file' not in st.session_state]. *)
Definition process_upload (fuel : nat) (uploaded_file : UploadedFile) : M unit :=
  st (Spinner "Uploading and processing file...");;
  f ← upload_to_gemini uploaded_file;
  modify_session (set_gemini_file f);;
  gf ← session_attr "gemini_file" gemini_file;
  active ← wait_for_file_active fuel gf;
  if active : bool then
    gf ← session_attr "gemini_file" gemini_file;
    cs ← start_chat [mk_Turn "user" [PFile gf; PText seed_prompt]];
    modify_session (set_chat_session cs);;
    summary_response ← chat_session_send_message "Provide the summary.";
    t ← response_text summary_response;
    modify_session (set_pdf_summary t);;
    modify_session (set_chat_history []);;
    st (Spinner "Fetching related articles...");;
    summary ← session_attr "pdf_summary" pdf_summary;
    pdf_title ← generate_title_from_summary summary;
    modify_session (set_pdf_title pdf_title);;
    let search_query := "Articles related to: " +:+ pdf_title in
    r ← tavily_search search_query 3;
    modify_session (set_search_results r)
  else mret tt.

(** Lines 202-207: the body of [if user_question]. *)
Definition ask (user_question : string) : M unit :=
  chat_history_append (mk_Message "user" user_question);;
  st (Spinner "Generating response...");;
  response ← chat_session_send_message user_question;
  t ← response_text response;
  chat_history_append (mk_Message "assistant" t).

Definition avatar_of (role : string) : avatar :=
  if (role =? "user")%string then AvatarUser else AvatarAssistant.

(** Lines 210-213 *)
Definition display_chat_history : M unit :=
  h ← session_attr "chat_history" chat_history;
  for_each h (fun message =>
    st (ChatMessage (role message) (avatar_of (role message)) (content message))).

(** What the widgets hand to one run of the script: [st.file_uploader] and
    [st.chat_input]. *)
Record Input := mk_Input {
  uploaded_file : option UploadedFile;
  user_question : option string
}.

(** Lines 190-213: what is shown once the upload block is through. *)
Definition show_document (inp : Input) : M unit :=
  st (StSuccess "PDF processed successfully!");;
  st (Expander "PDF Summary");;
  summary ← session_attr "pdf_summary" pdf_summary;
  st (StWrite summary);;
  ss ← get_session;
  (match pdf_title ss with
   | Some t => st (StWrite ("**Generated Title:** " +:+ t))
   | None => mret tt
   end);;
  (match user_question inp with
   | Some q => if PyStr.truthy q then ask q else mret tt
   | None => mret tt
   end);;
  display_chat_history.

(** Lines 158-216: [with col1:] *)
Definition col1 (fuel : nat) (inp : Input) : M unit :=
  st (Subheader "Chat Interface");;
  ss ← get_session;
  (match chat_history ss with
   | None => modify_session (set_chat_history [])
   | Some _ => mret tt
   end);;
  match uploaded_file inp with
  | Some uf =>
      ss ← get_session;
      (match gemini_file ss with
       | None => process_upload fuel uf
       | Some _ => mret tt
       end);;
      show_document inp
  | None => st (StInfo "Please upload a PDF file to start chatting.")
  end.

Definition show_article (result : Article) : M unit :=
  st (Expander ("**" +:+ default "Untitled" (art_title result) +:+ "**"));;
  st (StWrite ("[Read More](" +:+ default "#" (art_url result) +:+ ")")).

(** Lines 218-232: [with col2:] *)
Definition col2 : M unit :=
  st (Subheader "Related Articles Here");;
  ss ← get_session;
  match search_results ss with
  | Some (Some p) =>
      for_each (default [] (results p)) show_article;;
      match answer p with
      | Some a =>
          if PyStr.truthy a then
            st (Subheader "AI-Generated Summary of Related Content");;
            st (StWrite a)
          else mret tt
      | None => mret tt
      end
  | Some None =>
      st (StWarning "Unable to fetch related articles. Please check the logs for more information.")
  | None => st (StInfo "Upload a PDF to see related articles.")
  end.

(** One run of the script, from the column layout on (the page header above
    it draws fixed markup). *)
Definition script (fuel : nat) (inp : Input) : M unit :=
  col1 fuel inp;; col2.

(** The session over several interactions: Streamlit reruns the script for
    each one, whatever became of the run before, on the state it left. *)
Fixpoint runs (fuel : nat) (inputs : list Input) (s : State) : State :=
  match inputs with
  | [] => s
  | inp :: rest => runs fuel rest (snd (script fuel inp s))
  end.

End Program.

(** * Vocabulary of the properties *)

(** The seconds slept, newest first. *)
Fixpoint sleeps (tr : list event) : list Z :=
  match tr with
  | [] => []
  | EvSleep z :: tr' => z :: sleeps tr'
  | _ :: tr' => sleeps tr'
  end.

Definition is_ui (e : event) : bool :=
  match e with EvUi _ => true | _ => false end.

(** The state after some more events, newest first. *)
Definition after_events (s : State) (evs : list event) : State :=
  mk_State (fs s) (evs ++ trace s)%list (session s).

(** The seconds of back-off before attempts [1 .. n], oldest first:
    [2^0, 2^1, ..., 2^(n-1)]. *)
Definition backoff (n : nat) : list Z := map (fun i => 2 ^ i) (range (Z.of_nat n)).

(** The k-th answer the search service will give from state [s] on. *)
Definition search_answer (env : Env) (s : State) (query : string) (k : nat)
  : outcome Payload :=
  tavily_client_search env (calls SvSearch (trace s) + k)%nat query.

Definition http_failure (o : outcome Payload) : bool :=
  match o with Returns _ => false | Raises e => is_http_error e end.

(** An attempt ends the search when it succeeds, when it fails with an error
    that is not an HTTP error, or when it is the last one allowed. *)
Definition ends_search (o : outcome Payload) (last : bool) : bool :=
  negb (http_failure o) || last.

Definition payload_of (o : outcome Payload) : option Payload :=
  match o with Returns p => Some p | Raises _ => None end.

(** The outcome of one call of [tavily_search], for a query that is not
    blank and at least one attempt allowed: some attempt [n] ends the
    search; every attempt before it failed with an HTTP error and was
    followed by a sleep of [2^attempt] seconds; attempt [n] is the last call
    made; a payload is returned as it is, a failure gives [None], and a
    failure that is an HTTP error ends the search only as the last attempt
    allowed. *)
Definition search_outcome_spec (env : Env) (query : string) (max_retries : Z)
  (s : State) : Prop :=
  exists (n : nat) (s' : State),
    Z.of_nat n < max_retries /\
    (forall i, (i < n)%nat -> http_failure (search_answer env s query i) = true) /\
    tavily_search env query max_retries s
      = (Val (payload_of (search_answer env s query n)), s') /\
    calls SvSearch (trace s') = (calls SvSearch (trace s) + n + 1)%nat /\
    sleeps (trace s') = (rev (backoff n) ++ sleeps (trace s))%list /\
    fs s' = fs s /\ session s' = session s /\
    match search_answer env s query n with
    | Returns p => True
    | Raises e => is_http_error e = true -> Z.of_nat n = max_retries - 1
    end.

(** The k-th answer the status query will give from state [s] on. *)
Definition poll_answer (env : Env) (s : State) (file : File) (k : nat) : outcome File :=
  genai_get_file env (calls SvGetFile (trace s) + k)%nat (name file).

(** The answer is a file that is still being processed. *)
Definition pending (o : outcome File) : bool :=
  match o with
  | Returns f => (state_name f =? "PROCESSING")%string
  | Raises _ => false
  end.

(** [k] turns of the loop, newest event first: a sleep of 2 seconds, then
    a query. *)
Fixpoint sleep_polls (file_name : string) (k : nat) : list event :=
  match k with
  | O => []
  | S k' => EvGetFile file_name :: EvSleep 2 :: sleep_polls file_name k'
  end.

(** The first query and [k] turns of the loop. *)
Definition poll_events (file_name : string) (k : nat) : list event :=
  (sleep_polls file_name k ++ [EvGetFile file_name])%list.

(** What [wait_for_file_active] does once the status is final. *)
Definition verdict (file : File) (o : outcome File) (s : State) : result bool * State :=
  match o with
  | Raises e => (Exc e, s)
  | Returns f =>
      if (state_name f =? "ACTIVE")%string then (Val true, s)
      else (Val false,
            after_events s [EvUi (StError ("File " +:+ name file +:+ " failed to process"))])
  end.

(** [wp m Q s]: running [m] from [s] ends in a result and a state that
    satisfy [Q]. *)
Definition wp {A} (m : M A) (Q : result A -> State -> Prop) (s : State) : Prop :=
  Q (m s).1 (m s).2.

(** A block that ends well in every state and only adds widgets to the
    trace. *)
Definition ui_only (m : M unit) : Prop :=
  forall s, exists evs,
    forallb is_ui evs = true /\ m s = (Val tt, after_events s evs).

(** The handle of a document is stored in the session. *)
Definition has_document (ss : SessionState) : bool :=
  match gemini_file ss with Some _ => true | None => false end.

(** The READY state: the document is stored, its conversation is open, and
    summary, title and search results have been computed. *)
Definition ready (ss : SessionState) : bool :=
  match chat_history ss, gemini_file ss, chat_session ss,
        pdf_summary ss, pdf_title ss, search_results ss with
  | Some _, Some _, Some _, Some _, Some _, Some _ => true
  | _, _, _, _, _, _ => false
  end.

(** sendTurn: the round trip of the question and the reading of the text
    of the reply. *)
Definition turn_reply (env : Env) (s : State) (q : string) : outcome string :=
  match chat_session (session s) with
  | Some cs =>
      match chat_send_message env (calls SvSend (trace s)) cs q with
      | Returns response => text response
      | Raises e => Raises e
      end
  | None => Raises (mk_exn AttributeError "chat_session")
  end.

Definition user_turn (q : string) : Message := mk_Message "user" q.
Definition assistant_turn (t : string) : Message := mk_Message "assistant" t.

Definition is_send (e : event) : bool :=
  match e with EvSendMessage _ => true | _ => false end.

(** Events of a run that computes nothing about the document: widgets
    drawn and chat messages sent. *)
Definition quiet (e : event) : bool := is_ui e || is_send e.

(** What a run leaves alone when it computes nothing about the document:
    the temporary directory, the stored handle, summary, title and search
    results; the conversation stays open; the trace only grows by widgets
    and chat messages. *)
Record kept (s s' : State) : Prop := mk_kept {
  kept_fs : fs s' = fs s;
  kept_trace : exists evs, trace s' = (evs ++ trace s)%list /\ forallb quiet evs = true;
  kept_gemini_file : gemini_file (session s') = gemini_file (session s);
  kept_pdf_summary : pdf_summary (session s') = pdf_summary (session s);
  kept_pdf_title : pdf_title (session s') = pdf_title (session s);
  kept_search_results : search_results (session s') = search_results (session s);
  kept_chat_session :
    is_Some (chat_session (session s)) -> is_Some (chat_session (session s'))
}.

(** The question of a run, if one is asked: the chat input is only there
    under an uploaded file, and the empty string counts as none. *)
Definition asked (inp : Input) : option string :=
  match uploaded_file inp, user_question inp with
  | Some _, Some q => if PyStr.truthy q then Some q else None
  | _, _ => None
  end.

(** The turns a run adds to the chat history. *)
Definition new_turns (env : Env) (s : State) (inp : Input) : list Message :=
  match pdf_summary (session s), asked inp with
  | Some _, Some q =>
      user_turn q ::
        match turn_reply env s q with
        | Returns t => [assistant_turn t]
        | Raises _ => []
        end
  | _, _ => []
  end.

(** How a run ends. *)
Definition run_result (env : Env) (s : State) (inp : Input) : result unit :=
  match uploaded_file inp with
  | None => Val tt
  | Some _ =>
      match pdf_summary (session s) with
      | None => Exc (mk_exn AttributeError "pdf_summary")
      | Some _ =>
          match asked inp with
          | Some q =>
              match turn_reply env s q with
              | Returns _ => Val tt
              | Raises e => Exc e
              end
          | None => Val tt
          end
      end
  end.

(** The conversations started so far. *)
Fixpoint conversations (tr : list event) : nat :=
  match tr with
  | [] => 0%nat
  | EvStartChat _ :: tr' => S (conversations tr')
  | _ :: tr' => conversations tr'
  end.

(** The reset on a new upload as the spec states it, for one run: the new
    upload is processed and the history of the old document is gone. *)
Definition reupload_resets (env : Env) (fuel : nat) (s : State) (uf : UploadedFile)
  : Prop :=
  let s' := (script env fuel (mk_Input (Some uf) None) s).2 in
  calls SvUpload (trace s') = S (calls SvUpload (trace s)) /\
  chat_history (session s') = Some [].

(** ** Vocabulary of the further properties *)

(** The events [tavily_search] can add to the trace. *)
Definition search_event (e : event) : bool :=
  match e with
  | EvSearch _ | EvSleep _ | EvLogInfo _ | EvLogError _ => true
  | _ => false
  end.

(** A state that differs from another by more events of one kind only. *)
Definition extends_by (P : event -> bool) (s s' : State) : Prop :=
  fs s' = fs s /\ session s' = session s /\
  exists evs, trace s' = (evs ++ trace s)%list /\ forallb P evs = true.

(** The sum of a list of seconds. *)
Definition total (l : list Z) : Z := fold_right Z.add 0 l.

(** The string starts, or ends, with a whitespace character. *)
Definition head_space (s : string) : bool :=
  match s with
  | EmptyString => false
  | String c _ => PyStr.isspace c
  end.

Fixpoint last_space (s : string) : bool :=
  match s with
  | EmptyString => false
  | String c EmptyString => PyStr.isspace c
  | String _ r => last_space r
  end.

(** The title [generate_title_from_summary] gives, by the answer of the
    generation service. *)
Definition title_of (o : outcome Response) : string :=
  match o with
  | Returns response =>
      match text response with
      | Returns t => PyStr.strip t
      | Raises _ => "Untitled Document"
      end
  | Raises _ => "Untitled Document"
  end.

(** The events the polling loop can add to the trace: status queries for
    the file and sleeps of 2 seconds. *)
Definition poll_event (file_name : string) (e : event) : bool :=
  match e with
  | EvGetFile n => (n =? file_name)%string
  | EvSleep z => z =? 2
  | _ => false
  end.

(** The function returned [False]. *)
Definition returned_false (r : result bool) : bool :=
  match r with Val false => true | _ => false end.

(** The answer the upload service will give from state [s] on. *)
Definition upload_answer (env : Env) (s : State) (uf : UploadedFile) : outcome File :=
  genai_upload_file env (calls SvUpload (trace s)) (getvalue uf).

(** The conversation the script opens on a file. *)
Definition summary_session (f : File) : ChatSession :=
  mk_ChatSession [mk_Turn "user" [PFile f; PText seed_prompt]].

(** The summary the script will get for a file from state [s] on: the round
    trip of "Provide the summary." and the reading of the reply. *)
Definition summary_answer (env : Env) (s : State) (f : File) : outcome string :=
  match chat_send_message env (calls SvSend (trace s)) (summary_session f)
                          "Provide the summary." with
  | Returns response => text response
  | Raises e => Raises e
  end.

(** The query the script searches for. *)
Definition search_query (title : string) : string := "Articles related to: " +:+ title.

(** The events of the first lines of [process_upload] when the upload is
    answered: spinner, temporary file written, uploaded and removed (newest
    first). *)
Definition upload_events (s : State) (uf : UploadedFile) : list event :=
  let p := fresh (dom (fs s)) in
  [EvUnlink p; EvUploadFile p "application/pdf"; EvTmpWrite p (getvalue uf);
   EvUi (Spinner "Uploading and processing file...")].

Definition is_log_error (e : event) : bool :=
  match e with EvLogError _ => true | _ => false end.

(** The state after the first lines of the script (158-163): the header is
    drawn and the chat history is there, empty if it was absent. *)
Definition started (s : State) : State :=
  mk_State (fs s) (EvUi (Subheader "Chat Interface") :: trace s)
           (set_chat_history (default [] (chat_history (session s))) (session s)).

(** What a run does after the upload block: lines 190-213 and the side
    column. *)
Definition after_upload (env : Env) (inp : Input) : M unit :=
  show_document env inp;; col2.

(** The chat messages sent so far, newest first. *)
Fixpoint sent (tr : list event) : list string :=
  match tr with
  | [] => []
  | EvSendMessage msg :: tr' => msg :: sent tr'
  | _ :: tr' => sent tr'
  end.

(** The widget the transcript shows for a message. *)
Definition chat_widget (m : Message) : event :=
  EvUi (ChatMessage (role m) (avatar_of (role m)) (content m)).


(** What a session has spent on its document between two states: when the
    later state has a document, at most one generation call, three search
    calls and one conversation more; when it has none, nothing. *)
Definition spends (s s' : State) : Prop :=
  if has_document (session s') then
    (calls SvGenerate (trace s') <= calls SvGenerate (trace s) + 1)%nat /\
    (calls SvSearch (trace s') <= calls SvSearch (trace s) + 3)%nat /\
    (conversations (trace s') <= conversations (trace s) + 1)%nat
  else
    calls SvGenerate (trace s') = calls SvGenerate (trace s) /\
    calls SvSearch (trace s') = calls SvSearch (trace s) /\
    conversations (trace s') = conversations (trace s).

(** The events of polling, with the widgets around it. *)
Definition poll_or_ui (file_name : string) (e : event) : bool :=
  poll_event file_name e || is_ui e.

(** ** Vocabulary of the chat turn *)

(** The conversation after a round trip that succeeded: the client has
    added the question and the reply. *)
Definition recorded (cs : ChatSession) (q : string) (response : Response)
  : ChatSession :=
  mk_ChatSession
    (history cs ++ [mk_Turn "user" [PText q]; mk_Turn "model" [PReply response]]).

(** The conversation after the round trip of a question, by the answer of
    the chat service: as it was when [send_message] raised. *)
Definition conversation_after (env : Env) (s : State) (cs : ChatSession) (q : string)
  : ChatSession :=
  match chat_send_message env (calls SvSend (trace s)) cs q with
  | Returns response => recorded cs q response
  | Raises _ => cs
  end.

(** The session a question leaves, asked with chat history [h] and
    conversation [cs]: the history has the question and, when the turn
    brought one, the reply; the conversation is as the round trip left it;
    every other key is as it was. *)
Definition after_question (env : Env) (s : State) (h : list Message)
  (cs : ChatSession) (q : string) : SessionState :=
  set_chat_history
    (h ++ user_turn q ::
       match turn_reply env s q with
       | Returns t => [assistant_turn t]
       | Raises _ => []
       end)
    (set_chat_session (conversation_after env s cs q) (session s)).

(** The failure of one turn as the spec states it, for the runs that come
    after it: they leave the session state they would have left had the
    failed question not been asked. *)
Definition failed_turn_leaves_no_trace (env : Env) (fuel : nat) (s : State)
  (failed : Input) (later : list Input) : Prop :=
  session (runs env fuel (failed :: later) s) = session (runs env fuel later s).

(** One question as the spec states it: it has added one user turn and one
    assistant reply to the chat history. *)
Definition appended_exchange (before after : option (list Message)) (q : string)
  : Prop :=
  exists h t, before = Some h /\ after = Some (h ++ [user_turn q; assistant_turn t])%list.

(** The largest whole number of seconds [time.sleep] accepts: the time is
    kept in nanoseconds in 64 bits, and a longer one raises
    [OverflowError]. *)
Definition time_sleep_max : Z := (2 ^ 63 - 1) / 10 ^ 9.

(** ** A session to run through *)

Module Demo.

Definition pdf_a : UploadedFile :=
  mk_UploadedFile "a.pdf" [Byte.x25; Byte.x50; Byte.x44; Byte.x46].

Definition pdf_b : UploadedFile :=
  mk_UploadedFile "b.pdf" [Byte.x25; Byte.x50; Byte.x44; Byte.x46; Byte.x2d].

Definition payload : Payload :=
  mk_Payload
    (Some [mk_Article (Some "Solar outlook") (Some "https://example.org/solar");
           mk_Article None (Some "https://example.org/wind")])
    (Some "Renewables are growing.").

Definition http_503 : exn := mk_exn HTTPError "503 Server Error".
Definition quota : exn := mk_exn OtherException "quota exceeded".

(** The upload is accepted; the file is active at the third status query;
    the title comes back with blanks around it; the search fails twice with
    an HTTP error and then succeeds; the chat answers every question but
    "What broke?". *)
Definition env : Env :=
  mk_Env
    (fun _ _ => Returns (mk_File "files/abc" "PROCESSING"))
    (fun k nm =>
       Returns (mk_File nm (if (k <? 2)%nat then "PROCESSING" else "ACTIVE")))
    (fun _ _ =>
       Returns (mk_Response (Returns ("  Renewable Energy Report" +:+ PyStr.nl))))
    (fun _ _ msg =>
       if (msg =? "Provide the summary.")%string
       then Returns (mk_Response (Returns "A report on renewable energy"))
       else if (msg =? "What broke?")%string
       then Raises quota
       else Returns (mk_Response (Returns "It is from 2024.")))
    (fun k _ => if (k <? 2)%nat then Raises http_503 else Returns payload).

(** A status service that never gets past "PROCESSING". *)
Definition stuck_env : Env :=
  mk_Env (genai_upload_file env)
         (fun _ nm => Returns (mk_File nm "PROCESSING"))
         (model_generate_content env) (chat_send_message env)
         (tavily_client_search env).

(** A status service that ends in "FAILED" at the second query. *)
Definition failing_env : Env :=
  mk_Env (genai_upload_file env)
         (fun k nm =>
            Returns (mk_File nm (if (k <? 1)%nat then "PROCESSING" else "FAILED")))
         (model_generate_content env) (chat_send_message env)
         (tavily_client_search env).

Definition file : File := mk_File "files/abc" "PROCESSING".

Definition fresh_state : State := mk_State ∅ [] empty_session.

(** The session after the first upload. *)
Definition ready_state : State :=
  runs env 5 [mk_Input (Some pdf_a) None] fresh_state.

(** The session after the first upload and one question. *)
Definition chatting_state : State :=
  runs env 5 [mk_Input (Some pdf_a) None;
              mk_Input (Some pdf_a) (Some "What year is this?")] fresh_state.

(** An upload service that cannot be reached. *)
Definition offline : exn := mk_exn OtherException "connection refused".

Definition offline_env : Env :=
  mk_Env (fun _ _ => Raises offline)
         (genai_get_file env) (model_generate_content env)
         (chat_send_message env) (tavily_client_search env).

(** A status service that answers once and then fails. *)
Definition flaky_env : Env :=
  mk_Env (genai_upload_file env)
         (fun k nm =>
            if (k <? 1)%nat then Returns (mk_File nm "PROCESSING")
            else Raises offline)
         (model_generate_content env) (chat_send_message env)
         (tavily_client_search env).

(** A chat service that refuses every message. *)
Definition mute_env : Env :=
  mk_Env (genai_upload_file env) (genai_get_file env)
         (model_generate_content env)
         (fun _ _ _ => Raises quota)
         (tavily_client_search env).

(** The session after an upload whose processing failed. *)
Definition stuck_state : State :=
  runs failing_env 5 [mk_Input (Some pdf_a) None] fresh_state.

(** The conversation of [ready_state]: the seed and the summary exchange. *)
Definition conversation : ChatSession :=
  recorded (summary_session file) "Provide the summary."
           (mk_Response (Returns "A report on renewable energy")).

End Demo.

(** * Properties *)

(** ** Strings *)

Lemma lstrip_all_space s : PyStr.all_space s = true -> PyStr.lstrip s = "".
Proof.
  induction s as [|c r IH]; simpl; [done|].
  destruct (PyStr.isspace c); simpl; [exact IH | discriminate].
Qed.

Lemma strip_all_space s : PyStr.all_space s = true -> PyStr.strip s = "".
Proof. intros H. unfold PyStr.strip. by rewrite lstrip_all_space. Qed.

Lemma lstrip_not_all_space s :
  PyStr.all_space s = false ->
  exists c r, PyStr.lstrip s = String c r /\ PyStr.isspace c = false.
Proof.
  induction s as [|c r IH]; simpl; [discriminate|].
  destruct (PyStr.isspace c) eqn:Hc; simpl; [exact IH|].
  intros _. by exists c, r.
Qed.

Lemma strip_not_all_space s :
  PyStr.all_space s = false -> PyStr.truthy (PyStr.strip s) = true.
Proof.
  intros H. destruct (lstrip_not_all_space s H) as (c & r & Hl & Hc).
  unfold PyStr.strip. rewrite Hl. simpl. rewrite Hc, andb_false_r. reflexivity.
Qed.

(** A query is blank exactly when the guard [not query.strip()] fires. *)
Lemma blank_guard s :
  negb (PyStr.truthy (PyStr.strip s)) = PyStr.all_space s.
Proof.
  destruct (PyStr.all_space s) eqn:H.
  - by rewrite strip_all_space.
  - by rewrite strip_not_all_space.
Qed.

(** ** The trace *)

Lemma calls_app sv tr1 tr2 :
  calls sv (tr1 ++ tr2) = (calls sv tr1 + calls sv tr2)%nat.
Proof.
  induction tr1 as [|e tr1 IH]; simpl; [done|].
  destruct (is_call sv e); simpl; by rewrite IH.
Qed.

Lemma calls_ui sv tr : forallb is_ui tr = true -> calls sv tr = 0%nat.
Proof.
  induction tr as [|e tr IH]; simpl; [done|].
  destruct e; simpl; try discriminate. exact IH.
Qed.

(** ** [upload_to_gemini] *)

(** C7: [upload_to_gemini] writes the PDF bytes to a temporary file, hands
    that file to the remote upload and deletes it afterwards, whether the
    upload returned a handle or raised: the temporary directory is as it was
    before the call, the last event is the unlink of the temporary path, and
    the function's outcome is the upload's outcome (its handle, or its
    exception on the way up). *)
Theorem upload_to_gemini_deletes_tmp env (uploaded_file : UploadedFile) (s : State) :
  let p := fresh (dom (fs s)) in
  let r := of_outcome (genai_upload_file env (calls SvUpload (trace s))
                                         (getvalue uploaded_file)) in
  fs s !! p = None /\
  upload_to_gemini env uploaded_file s =
    (r, mk_State (fs s)
                 (EvUnlink p :: EvUploadFile p "application/pdf"
                  :: EvTmpWrite p (getvalue uploaded_file) :: trace s)
                 (session s)).
Proof.
  intros p r.
  assert (Hp : fs s !! p = None).
  { apply not_elem_of_dom. apply is_fresh. }
  split; [exact Hp|].
  unfold upload_to_gemini, named_temporary_file_write, try_finally, genai_upload,
    os_unlink, call, mbind, M_bind, mret, M_ret.
  fold p. simpl. rewrite lookup_insert_eq. simpl. subst r.
  destruct (genai_upload_file _ _ _); simpl;
    by rewrite lookup_insert_eq, (delete_insert_id _ _ _ Hp).
Qed.

(** ** [generate_title_from_summary] *)

(** C6: [generate_title_from_summary] makes one generation call with the
    title prompt.  When the call raises, or reading the text of its response
    raises, the function logs the error and returns "Untitled Document"; when
    it succeeds the function returns the generated text stripped. *)
Theorem generate_title_from_summary_fallback env (summary : string) (s : State) :
  let prompt := title_prompt summary in
  let after evs := mk_State (fs s) (evs ++ EvGenerate prompt :: trace s) (session s) in
  generate_title_from_summary env summary s =
    match model_generate_content env (calls SvGenerate (trace s)) prompt with
    | Raises e =>
        (Val "Untitled Document", after [EvLogError (ErrorGeneratingTitle e)])
    | Returns response =>
        match text response with
        | Raises e =>
            (Val "Untitled Document", after [EvLogError (ErrorGeneratingTitle e)])
        | Returns t => (Val (PyStr.strip t), after [])
        end
    end.
Proof.
  intros prompt after.
  unfold generate_title_from_summary, try_except, generate_content, response_text,
    logging_error, emit, call, mbind, M_bind, mret, M_ret.
  fold prompt. simpl.
  destruct (model_generate_content _ _ _) as [response|e]; simpl; [|reflexivity].
  destruct (text response); reflexivity.
Qed.

(** ** [tavily_search] *)

Section Search.

Variable env : Env.
Variable query : string.
Variable max_retries : Z.

(** One turn of the loop, by the answer of the service. *)
Lemma search_attempt_eq (attempt : Z) (s : State) :
  let o := search_answer env s query 0 in
  let tr := EvSearch query :: EvLogInfo (AttemptingSearch (attempt + 1)) :: trace s in
  search_attempt env query max_retries attempt s =
    match o with
    | Returns p =>
        (Val (Return (Some p)),
         mk_State (fs s) (EvLogInfo (SearchSuccessful p) :: tr) (session s))
    | Raises e =>
        if is_http_error e then
          if attempt =? max_retries - 1 then
            (Val (Return None),
             mk_State (fs s) (EvLogError (HttpErrorInSearch (attempt + 1) e) :: tr)
                      (session s))
          else
            (Val Continue,
             mk_State (fs s)
                      (EvSleep (2 ^ attempt)
                       :: EvLogError (HttpErrorInSearch (attempt + 1) e) :: tr)
                      (session s))
        else
          (Val (Return None),
           mk_State (fs s) (EvLogError (UnexpectedErrorInSearch e) :: tr) (session s))
    end.
Proof.
  unfold search_attempt, search_answer, try_except, tavily_client_call, logging_info,
    logging_error, time_sleep, emit, call, mbind, M_bind, mret, M_ret.
  simpl. rewrite Nat.add_0_r.
  destruct (tavily_client_search _ _ _) as [p|e]; simpl; [reflexivity|].
  destruct (is_http_error e); simpl; [|reflexivity].
  destruct (attempt =? max_retries - 1); reflexivity.
Qed.

(** The loop from attempt [a] on, over [len] attempts of which the first
    [n] fail with an HTTP error and none of these is the last attempt
    allowed: it reaches attempt [a + n] having made [n] calls and slept
    [2^a, ..., 2^(a+n-1)] seconds. *)
Lemma for_attempts_http_prefix (n : nat) : forall (a len : nat) (s : State),
  (n <= len)%nat ->
  Z.of_nat (a + n) <= max_retries - 1 ->
  (forall i, (i < n)%nat -> http_failure (search_answer env s query i) = true) ->
  exists s',
    for_attempts (search_attempt env query max_retries)
                 (map Z.of_nat (seq a len)) s
    = for_attempts (search_attempt env query max_retries)
                   (map Z.of_nat (seq (a + n) (len - n))) s' /\
    fs s' = fs s /\ session s' = session s /\
    calls SvSearch (trace s') = (calls SvSearch (trace s) + n)%nat /\
    sleeps (trace s') =
      (rev (map (fun i => 2 ^ i) (map Z.of_nat (seq a n))) ++ sleeps (trace s))%list.
Proof.
  induction n as [|n IH]; intros a len s Hlen Hmax Hhttp.
  - exists s. rewrite Nat.add_0_r, Nat.sub_0_r. simpl. rewrite Nat.add_0_r. done.
  - destruct len as [|len]; [lia|].
    pose proof (Hhttp 0%nat ltac:(lia)) as H0.
    pose proof (search_attempt_eq (Z.of_nat a) s) as Hstep. simpl in Hstep.
    destruct (search_answer env s query 0) as [p|e] eqn:Ho; simpl in H0; [discriminate|].
    rewrite H0 in Hstep.
    destruct (Z.eqb_spec (Z.of_nat a) (max_retries - 1)) as [Heq|Hne]; [lia|].
    set (s1 := mk_State (fs s)
                 (EvSleep (2 ^ Z.of_nat a)
                  :: EvLogError (HttpErrorInSearch (Z.of_nat a + 1) e)
                  :: EvSearch query :: EvLogInfo (AttemptingSearch (Z.of_nat a + 1))
                  :: trace s) (session s)) in *.
    destruct (IH (S a) len s1) as (s' & Heq & Hfs & Hss & Hcalls & Hsl).
    + lia.
    + lia.
    + intros i Hi. specialize (Hhttp (S i) ltac:(lia)).
      unfold search_answer in *. subst s1. simpl.
      by rewrite Nat.add_succ_r in Hhttp.
    + exists s'. split; [|split; [|split; [|split]]].
      * simpl. unfold mbind, M_bind at 1. rewrite Hstep.
        replace (a + S n)%nat with (S a + n)%nat by lia. exact Heq.
      * by rewrite Hfs.
      * by rewrite Hss.
      * rewrite Hcalls. subst s1. simpl. lia.
      * rewrite Hsl. subst s1. simpl. by rewrite <- app_assoc.
Qed.

(** The search from a fresh call on: [n] HTTP failures, then an attempt that
    ends the search. *)
Lemma tavily_search_run (n : nat) (s : State) :
  PyStr.all_space query = false ->
  Z.of_nat n < max_retries ->
  (forall i, (i < n)%nat -> http_failure (search_answer env s query i) = true) ->
  ends_search (search_answer env s query n) (Z.of_nat n =? max_retries - 1) = true ->
  exists s',
    tavily_search env query max_retries s
      = (Val (payload_of (search_answer env s query n)), s') /\
    fs s' = fs s /\ session s' = session s /\
    calls SvSearch (trace s') = (calls SvSearch (trace s) + n + 1)%nat /\
    sleeps (trace s') = (rev (backoff n) ++ sleeps (trace s))%list.
Proof.
  intros Hq Hn Hhttp Hend.
  unfold tavily_search. rewrite blank_guard, Hq. unfold range.
  destruct (for_attempts_http_prefix n 0 (Z.to_nat max_retries) s)
    as (s1 & Heq & Hfs & Hss & Hcalls & Hsl); [lia|simpl; lia|exact Hhttp|].
  rewrite Heq. simpl.
  destruct (Z.to_nat max_retries - n)%nat as [|m] eqn:Hm; [lia|].
  simpl. unfold mbind, M_bind at 1.
  pose proof (search_attempt_eq (Z.of_nat n) s1) as Hstep. simpl in Hstep.
  assert (Ho : search_answer env s1 query 0 = search_answer env s query n).
  { unfold search_answer. by rewrite Hcalls, Nat.add_0_r. }
  rewrite Ho in Hstep. rewrite Hstep. clear Hstep.
  unfold ends_search, http_failure in Hend. unfold backoff, range.
  rewrite Nat2Z.id.
  destruct (search_answer env s query n) as [p|e]; simpl.
  - eexists. split; [reflexivity|]. simpl. rewrite Hfs, Hss, Hcalls, Hsl.
    repeat split; lia.
  - destruct (is_http_error e); simpl in *.
    + rewrite Hend. eexists. split; [reflexivity|]. simpl.
      rewrite Hfs, Hss, Hcalls, Hsl. repeat split; lia.
    + eexists. split; [reflexivity|]. simpl. rewrite Hfs, Hss, Hcalls, Hsl.
      repeat split; lia.
Qed.

(** The attempt that ends the search exists whenever a retry is allowed. *)
Lemma ending_attempt_exists (s : State) :
  1 <= max_retries ->
  exists n : nat,
    Z.of_nat n < max_retries /\
    (forall i, (i < n)%nat -> http_failure (search_answer env s query i) = true) /\
    ends_search (search_answer env s query n) (Z.of_nat n =? max_retries - 1) = true.
Proof.
  intros Hmax.
  assert (H : forall k : nat, Z.of_nat k < max_retries ->
    (exists n : nat, Z.of_nat n < max_retries /\
       (forall i, (i < n)%nat -> http_failure (search_answer env s query i) = true) /\
       ends_search (search_answer env s query n) (Z.of_nat n =? max_retries - 1) = true)
    \/ (forall i, (i <= k)%nat -> http_failure (search_answer env s query i) = true)).
  { induction k as [|k IH]; intros Hk.
    - destruct (http_failure (search_answer env s query 0)) eqn:H0.
      + right. intros i Hi. by replace i with 0%nat by lia.
      + left. exists 0%nat. split; [lia|]. split; [intros; lia|].
        unfold ends_search. by rewrite H0.
    - destruct IH as [IH|IH]; [lia|by left|].
      destruct (http_failure (search_answer env s query (S k))) eqn:Hk1.
      + right. intros i Hi. destruct (decide (i = S k)) as [->|]; [done|].
        apply IH. lia.
      + left. exists (S k). split; [lia|]. split; [intros; apply IH; lia|].
        unfold ends_search. by rewrite Hk1. }
  destruct (H (Z.to_nat (max_retries - 1)) ltac:(lia)) as [Hex|Hall]; [exact Hex|].
  exists (Z.to_nat (max_retries - 1)). split; [lia|]. split.
  - intros i Hi. apply Hall. lia.
  - unfold ends_search.
    replace (Z.of_nat (Z.to_nat (max_retries - 1)) =? max_retries - 1) with true.
    + apply orb_true_r.
    + symmetry. apply Z.eqb_eq. lia.
Qed.

End Search.

(** With no attempt allowed the loop body never runs. *)
Lemma tavily_search_empty_range env (query : string) (max_retries : Z) (s : State) :
  max_retries <= 0 ->
  tavily_search env query max_retries s = (Val None, s).
Proof.
  intros Hmax. unfold tavily_search, range.
  destruct (negb _); [reflexivity|].
  by replace (Z.to_nat max_retries) with 0%nat by lia.
Qed.

(** C3: for a query that is not blank, [tavily_search] makes at most
    [max_retries] attempts.  An attempt that fails with an HTTP error is
    followed by a sleep of [2^attempt] seconds and the next attempt, unless
    it was the last one allowed, after which the function returns [None];
    an attempt that fails with any other error makes the function return
    [None] at once; an attempt that succeeds makes it return the payload of
    that attempt at once.  With no attempt allowed nothing is done. *)
Theorem tavily_search_retries env (query : string) (max_retries : Z) (s : State) :
  PyStr.all_space query = false ->
  (1 <= max_retries -> search_outcome_spec env query max_retries s) /\
  (max_retries <= 0 -> tavily_search env query max_retries s = (Val None, s)).
Proof.
  intros Hq. split; [|apply tavily_search_empty_range].
  intros Hmax.
  destruct (ending_attempt_exists env query max_retries s Hmax)
    as (n & Hn & Hhttp & Hend).
  destruct (tavily_search_run env query max_retries n s Hq Hn Hhttp Hend)
    as (s' & Hrun & Hfs & Hss & Hcalls & Hsl).
  exists n, s'. repeat (split; [assumption|]).
  unfold ends_search, http_failure in Hend.
  destruct (search_answer env s query n) as [p|e]; [exact I|].
  intros He. rewrite He in Hend. simpl in Hend. by apply Z.eqb_eq.
Qed.

(** C5: for a query that is empty or all whitespace, [tavily_search] returns
    [None] and leaves the world as it was: no call to the search service, no
    log record, no sleep. *)
Theorem tavily_search_blank_query env (query : string) (max_retries : Z) (s : State) :
  PyStr.all_space query = true ->
  tavily_search env query max_retries s = (Val None, s).
Proof.
  intros Hq. unfold tavily_search. by rewrite blank_guard, Hq.
Qed.

(** C10: with [max_retries <= 0] the loop body never runs: [tavily_search]
    returns [None] without a call to the search service (the world is as it
    was), for every query and so for every non-empty one. *)
Theorem tavily_search_no_attempt env (query : string) (max_retries : Z) (s : State) :
  max_retries <= 0 ->
  tavily_search env query max_retries s = (Val None, s).
Proof. apply tavily_search_empty_range. Qed.

(** ** [wait_for_file_active] *)

Lemma sleep_polls_snoc file_name k :
  (sleep_polls file_name k ++ [EvGetFile file_name; EvSleep 2])%list
  = EvGetFile file_name :: EvSleep 2 :: sleep_polls file_name k.
Proof. induction k as [|k IH]; simpl; [done|]. by rewrite IH. Qed.

Lemma sleep_polls_shift file_name k (tr : list event) :
  (sleep_polls file_name k ++ EvGetFile file_name :: EvSleep 2 :: tr)%list
  = EvGetFile file_name :: EvSleep 2 :: (sleep_polls file_name k ++ tr)%list.
Proof.
  change (EvGetFile file_name :: EvSleep 2 :: tr)
    with ([EvGetFile file_name; EvSleep 2] ++ tr)%list.
  by rewrite app_assoc, sleep_polls_snoc.
Qed.

Lemma calls_sleep_polls file_name k :
  calls SvGetFile (sleep_polls file_name k) = k.
Proof. induction k as [|k IH]; simpl; [done|]. by rewrite IH. Qed.

Section Polling.

Variable env : Env.
Variable file : File.

(** The loop entered with a status that is pending, when the next [n]
    answers are pending too and the one after them is not. *)
Lemma wait_loop_run (n : nat) : forall (fuel : nat) (cur : File) (s : State),
  pending (Returns cur) = true ->
  (forall i, (i < n)%nat -> pending (poll_answer env s file i) = true) ->
  pending (poll_answer env s file n) = false ->
  (n < fuel)%nat ->
  wait_loop env fuel file cur s
  = (of_outcome (poll_answer env s file n),
     after_events s (sleep_polls (name file) (S n))).
Proof.
  induction n as [|n IH]; intros fuel cur s Hcur Hpend Hfin Hfuel;
    (destruct fuel as [|fuel]; [lia|]); simpl in Hcur |- *; rewrite Hcur.
  - unfold mbind, M_bind, time_sleep, emit, genai_get, call, poll_answer in *.
    simpl. rewrite Nat.add_0_r in Hfin |- *.
    destruct (genai_get_file env (calls SvGetFile (trace s)) (name file)) as [f|e];
      simpl in *; [|reflexivity].
    destruct fuel; simpl; by rewrite Hfin.
  - pose proof (Hpend 0%nat ltac:(lia)) as H0.
    unfold mbind, M_bind, time_sleep, emit, genai_get, call. simpl.
    unfold poll_answer in H0. rewrite Nat.add_0_r in H0.
    destruct (genai_get_file env (calls SvGetFile (trace s)) (name file)) as [f|e];
      simpl in H0 |- *; [|discriminate].
    rewrite (IH fuel f _ H0).
    + unfold after_events, poll_answer. simpl.
      by rewrite sleep_polls_shift, Nat.add_succ_r.
    + intros i Hi. specialize (Hpend (S i) ltac:(lia)).
      unfold poll_answer in *. simpl. by rewrite Nat.add_succ_r in Hpend.
    + unfold poll_answer in *. simpl. by rewrite Nat.add_succ_r in Hfin.
    + lia.
Qed.

(** The loop entered with a status that is pending, when every answer the
    fuel can pay for is pending too. *)
Lemma wait_loop_diverges (fuel : nat) : forall (cur : File) (s : State),
  pending (Returns cur) = true ->
  (forall i, (i < fuel)%nat -> pending (poll_answer env s file i) = true) ->
  wait_loop env fuel file cur s
  = (Diverge, after_events s (sleep_polls (name file) fuel)).
Proof.
  induction fuel as [|fuel IH]; intros cur s Hcur Hpend; simpl in Hcur |- *;
    rewrite Hcur.
  - unfold diverge, after_events. by destruct s.
  - pose proof (Hpend 0%nat ltac:(lia)) as H0.
    unfold mbind, M_bind, time_sleep, emit, genai_get, call. simpl.
    unfold poll_answer in H0. rewrite Nat.add_0_r in H0.
    destruct (genai_get_file env (calls SvGetFile (trace s)) (name file)) as [f|e];
      simpl in H0 |- *; [|discriminate].
    rewrite (IH f _ H0).
    + unfold after_events. simpl. by rewrite sleep_polls_shift.
    + intros i Hi. specialize (Hpend (S i) ltac:(lia)).
      unfold poll_answer in *. simpl. by rewrite Nat.add_succ_r in Hpend.
Qed.

(** The whole function: [n] pending answers, then one that is not. *)
Lemma wait_for_file_active_run (n fuel : nat) (s : State) :
  (forall i, (i < n)%nat -> pending (poll_answer env s file i) = true) ->
  pending (poll_answer env s file n) = false ->
  (n <= fuel)%nat ->
  wait_for_file_active env fuel file s
  = verdict file (poll_answer env s file n)
            (after_events s (poll_events (name file) n
                             ++ [EvUi (Spinner "Processing file...")])).
Proof.
  intros Hpend Hfin Hfuel.
  unfold wait_for_file_active, st, emit, genai_get, call.
  unfold mbind at 1 2, M_bind at 1 2. simpl.
  set (s0 := mk_State (fs s) (EvUi (Spinner "Processing file...") :: trace s) (session s)).
  assert (Hans : forall k, poll_answer env s0 file k = poll_answer env s file k) by done.
  destruct n as [|n].
  - unfold poll_answer in Hfin. rewrite Nat.add_0_r in Hfin.
    unfold poll_answer. rewrite Nat.add_0_r.
    destruct (genai_get_file env (calls SvGetFile (trace s)) (name file)) as [f|e];
      simpl in Hfin |- *; [|reflexivity].
    unfold mbind, M_bind.
    destruct fuel; simpl; rewrite Hfin; simpl;
      destruct (state_name f =? "ACTIVE")%string; reflexivity.
  - pose proof (Hpend 0%nat ltac:(lia)) as H0.
    unfold poll_answer in H0. rewrite Nat.add_0_r in H0.
    destruct (genai_get_file env (calls SvGetFile (trace s)) (name file)) as [f|e];
      simpl in H0 |- *; [|discriminate].
    unfold mbind at 1, M_bind at 1.
    rewrite (wait_loop_run n fuel f _ H0).
    + unfold poll_answer, after_events, poll_events. simpl.
      rewrite Nat.add_succ_r.
      destruct (genai_get_file env _ (name file)) as [f'|e']; simpl.
      * unfold mbind, M_bind, mret, M_ret, st, emit.
        destruct (state_name f' =? "ACTIVE")%string; simpl;
          by rewrite <- !app_assoc.
      * by rewrite <- !app_assoc.
    + intros i Hi. specialize (Hpend (S i) ltac:(lia)).
      unfold poll_answer in *. simpl. by rewrite Nat.add_succ_r in Hpend.
    + unfold poll_answer in *. simpl. by rewrite Nat.add_succ_r in Hfin.
    + lia.
Qed.

(** The whole function when the service answers "pending" for as long as the
    fuel lasts. *)
Lemma wait_for_file_active_diverges (fuel : nat) (s : State) :
  (forall i, (i <= fuel)%nat -> pending (poll_answer env s file i) = true) ->
  wait_for_file_active env fuel file s
  = (Diverge,
     after_events s (poll_events (name file) fuel
                     ++ [EvUi (Spinner "Processing file...")])).
Proof.
  intros Hpend.
  unfold wait_for_file_active, st, emit, genai_get, call.
  unfold mbind at 1 2, M_bind at 1 2. simpl.
  pose proof (Hpend 0%nat ltac:(lia)) as H0.
  unfold poll_answer in H0. rewrite Nat.add_0_r in H0.
  destruct (genai_get_file env (calls SvGetFile (trace s)) (name file)) as [f|e];
    simpl in H0 |- *; [|discriminate].
  unfold mbind at 1, M_bind at 1.
  rewrite (wait_loop_diverges fuel f _ H0).
  - unfold after_events, poll_events. simpl. by rewrite <- !app_assoc.
  - intros i Hi. specialize (Hpend (S i) ltac:(lia)).
    unfold poll_answer in *. simpl. by rewrite Nat.add_succ_r in Hpend.
Qed.

End Polling.

(** If some answer is not pending, there is a first one. *)
Lemma first_settled env (file : File) (s : State) (n : nat) :
  pending (poll_answer env s file n) = false ->
  exists m, (m <= n)%nat /\
    (forall i, (i < m)%nat -> pending (poll_answer env s file i) = true) /\
    pending (poll_answer env s file m) = false.
Proof.
  intros Hn.
  assert (H : forall k : nat,
    (forall i, (i < k)%nat -> pending (poll_answer env s file i) = true)
    \/ exists m, (m < k)%nat /\
         (forall i, (i < m)%nat -> pending (poll_answer env s file i) = true) /\
         pending (poll_answer env s file m) = false).
  { induction k as [|k [IH|IH]].
    - left. intros; lia.
    - destruct (pending (poll_answer env s file k)) eqn:Hk.
      + left. intros i Hi. destruct (decide (i = k)) as [->|]; [done|].
        apply IH. lia.
      + right. exists k. split; [lia|done].
    - right. destruct IH as (m & Hm & H). exists m. split; [lia|done]. }
  destruct (H n) as [Hall|(m & Hm & H1 & H2)].
  - exists n. split; [lia|done].
  - exists m. split; [lia|done].
Qed.

Lemma verdict_not_diverge (file : File) (o : outcome File) (s : State) :
  fst (verdict file o s) <> Diverge.
Proof.
  destruct o as [f|e]; simpl; [|done].
  by destruct (state_name f =? "ACTIVE")%string.
Qed.

(** C4: [wait_for_file_active] queries the state of the file, and while the
    state is "PROCESSING" (the spec's PENDING) sleeps 2 seconds and queries
    again.  When the first state that is not "PROCESSING" comes after [n]
    pending ones, the function has made [n + 1] queries and slept [n] times
    2 seconds; it returns [True] if that state is "ACTIVE", and otherwise
    shows the error "File <name> failed to process" and returns [False]. *)
Theorem wait_for_file_active_result env (file f : File) (n fuel : nat) (s : State) :
  (forall i, (i < n)%nat -> pending (poll_answer env s file i) = true) ->
  poll_answer env s file n = Returns f ->
  state_name f <> "PROCESSING" ->
  (n <= fuel)%nat ->
  let polled :=
    after_events s (poll_events (name file) n ++ [EvUi (Spinner "Processing file...")]) in
  calls SvGetFile (trace polled) = (calls SvGetFile (trace s) + n + 1)%nat /\
  sleeps (trace polled) = (repeat 2 n ++ sleeps (trace s))%list /\
  wait_for_file_active env fuel file s =
    if decide (state_name f = "ACTIVE") then (Val true, polled)
    else (Val false,
          after_events polled
            [EvUi (StError ("File " +:+ name file +:+ " failed to process"))]).
Proof.
  intros Hpend Hfin Hstate Hfuel polled.
  assert (Hnp : pending (poll_answer env s file n) = false).
  { rewrite Hfin. simpl. by apply String.eqb_neq. }
  split; [|split].
  - subst polled. unfold after_events, poll_events. simpl.
    rewrite !calls_app, calls_sleep_polls. simpl. lia.
  - subst polled. unfold after_events, poll_events. simpl.
    rewrite <- !app_assoc. simpl.
    generalize (name file) as nm. intros nm.
    clear. induction n as [|n IH]; simpl; [done|]. by rewrite IH.
  - rewrite (wait_for_file_active_run env file n fuel s Hpend Hnp Hfuel), Hfin.
    fold polled. simpl.
    destruct (String.eqb_spec (state_name f) "ACTIVE") as [Heq|Hne].
    + by rewrite decide_True.
    + by rewrite decide_False.
Qed.

(** C9: [wait_for_file_active] has no bound on the number of queries.
    (1) If some answer of the service is not "PROCESSING", the call ends,
    with the same outcome for every amount of fuel large enough.
    (2) If the service answers "PROCESSING" forever, no amount of fuel is
    enough: with fuel for [k] turns of the loop the call is still going
    after [k + 1] queries and [k] sleeps of 2 seconds each.
    (3) For every number [N] there is a service for which the call returns
    [True] only after more than [N] queries. *)
Theorem wait_for_file_active_unbounded env (file : File) (s : State) :
  (forall n, pending (poll_answer env s file n) = false ->
     exists r s',
       r <> Diverge /\
       (calls SvGetFile (trace s') <= calls SvGetFile (trace s) + n + 1)%nat /\
       forall fuel, (n <= fuel)%nat ->
         wait_for_file_active env fuel file s = (r, s'))
  /\
  ((forall i, pending (poll_answer env s file i) = true) ->
     forall fuel,
       let s' := after_events s (poll_events (name file) fuel
                                 ++ [EvUi (Spinner "Processing file...")]) in
       wait_for_file_active env fuel file s = (Diverge, s') /\
       calls SvGetFile (trace s') = (calls SvGetFile (trace s) + fuel + 1)%nat /\
       sleeps (trace s') = (repeat 2 fuel ++ sleeps (trace s))%list)
  /\
  (forall N : nat, exists env' fuel s',
     wait_for_file_active env' fuel file s = (Val true, s') /\
     (calls SvGetFile (trace s) + N < calls SvGetFile (trace s'))%nat).
Proof.
  assert (Hsl : forall nm k tr,
    sleeps ((poll_events nm k ++ [EvUi (Spinner "Processing file...")]) ++ tr)
    = (repeat 2 k ++ sleeps tr)%list).
  { intros nm k tr. unfold poll_events. rewrite <- !app_assoc. simpl.
    induction k as [|k IH]; simpl; [done|]. by rewrite IH. }
  assert (Hcl : forall nm k tr,
    calls SvGetFile ((poll_events nm k ++ [EvUi (Spinner "Processing file...")]) ++ tr)
    = (calls SvGetFile tr + k + 1)%nat).
  { intros nm k tr. unfold poll_events.
    rewrite !calls_app, calls_sleep_polls. simpl. lia. }
  split; [|split].
  - intros n Hn.
    destruct (first_settled env file s n Hn) as (m & Hm & Hpend & Hfin).
    set (v := verdict file (poll_answer env s file m)
                (after_events s (poll_events (name file) m
                                 ++ [EvUi (Spinner "Processing file...")]))).
    exists (fst v), (snd v). split; [|split].
    + apply verdict_not_diverge.
    + subst v. destruct (poll_answer env s file m) as [f|e]; simpl.
      * destruct (state_name f =? "ACTIVE")%string; simpl; rewrite ?Hcl; simpl;
          rewrite ?Hcl; lia.
      * rewrite Hcl. lia.
    + intros fuel Hfuel.
      rewrite (wait_for_file_active_run env file m fuel s Hpend Hfin ltac:(lia)).
      fold v. by destruct v.
  - intros Hpend fuel s'. subst s'. split; [|split].
    + apply wait_for_file_active_diverges. intros i _. apply Hpend.
    + unfold after_events. simpl. apply Hcl.
    + unfold after_events. simpl. apply Hsl.
  - intros N.
    set (k0 := calls SvGetFile (trace s)).
    set (env' := mk_Env (genai_upload_file env)
      (fun k nm => if (k <? k0 + S N)%nat
                   then Returns (mk_File nm "PROCESSING")
                   else Returns (mk_File nm "ACTIVE"))
      (model_generate_content env) (chat_send_message env)
      (tavily_client_search env)).
    exists env', (S N), (after_events s (poll_events (name file) (S N)
                          ++ [EvUi (Spinner "Processing file...")])).
    split.
    + rewrite (wait_for_file_active_run env' file (S N) (S N) s).
      * unfold poll_answer, env'. simpl. fold k0.
        destruct (Nat.ltb_spec (k0 + S N) (k0 + S N)) as [?|_]; [lia|]. reflexivity.
      * intros i Hi. unfold poll_answer, env'. simpl. fold k0.
        destruct (Nat.ltb_spec (k0 + i) (k0 + S N)) as [_|?]; [reflexivity|lia].
      * unfold poll_answer, env'. simpl. fold k0.
        destruct (Nat.ltb_spec (k0 + S N) (k0 + S N)) as [?|_]; [lia|]. reflexivity.
      * lia.
    + unfold after_events. cbn [trace]. rewrite Hcl. fold k0. lia.
Qed.

(** ** The script *)

(** *** Running the monad step by step *)

Lemma wp_bind {A B} (m : M A) (f : A -> M B) (Q : result B -> State -> Prop) s :
  wp m (fun r s' =>
          match r with
          | Val a => wp (f a) Q s'
          | Exc e => Q (Exc e) s'
          | Diverge => Q Diverge s'
          end) s ->
  wp (m ≫= f) Q s.
Proof.
  unfold wp, mbind, M_bind. by destruct (m s) as [[a|e|] s'].
Qed.

Lemma wp_ret {A} (a : A) (Q : result A -> State -> Prop) s :
  Q (Val a) s -> wp (mret a) Q s.
Proof. done. Qed.

Lemma wp_st (w : widget) (Q : result unit -> State -> Prop) s :
  Q (Val tt) (after_events s [EvUi w]) -> wp (st w) Q s.
Proof. done. Qed.

Lemma wp_get_session (Q : result SessionState -> State -> Prop) s :
  Q (Val (session s)) s -> wp get_session Q s.
Proof. done. Qed.

Lemma wp_modify_session f (Q : result unit -> State -> Prop) s :
  Q (Val tt) (mk_State (fs s) (trace s) (f (session s))) ->
  wp (modify_session f) Q s.
Proof. done. Qed.

Lemma wp_session_attr {A} key (get : SessionState -> option A)
  (Q : result A -> State -> Prop) s :
  match get (session s) with
  | Some v => Q (Val v) s
  | None => Q (Exc (mk_exn AttributeError key)) s
  end ->
  wp (session_attr key get) Q s.
Proof. unfold wp, session_attr. by destruct (get (session s)). Qed.

(** *** Blocks that only draw *)

Lemma after_events_nil s : after_events s [] = s.
Proof. by destruct s. Qed.

Lemma after_events_app s evs1 evs2 :
  after_events (after_events s evs1) evs2 = after_events s (evs2 ++ evs1).
Proof. unfold after_events. simpl. by rewrite app_assoc. Qed.

Lemma ui_only_ret : ui_only (mret tt).
Proof. intros s. exists []. by rewrite after_events_nil. Qed.

Lemma ui_only_st w : ui_only (st w).
Proof. intros s. by exists [EvUi w]. Qed.

Lemma ui_only_seq (m1 m2 : M unit) :
  ui_only m1 -> ui_only m2 -> ui_only (m1;; m2).
Proof.
  intros H1 H2 s. destruct (H1 s) as (evs1 & Hui1 & Heq1).
  destruct (H2 (after_events s evs1)) as (evs2 & Hui2 & Heq2).
  exists (evs2 ++ evs1)%list. split.
  - by rewrite forallb_app, Hui1, Hui2.
  - unfold mbind, M_bind. by rewrite Heq1, Heq2, after_events_app.
Qed.

Lemma ui_only_for_each {A} (l : list A) (body : A -> M unit) :
  (forall x, ui_only (body x)) -> ui_only (for_each l body).
Proof.
  intros Hbody. induction l as [|x l IH]; simpl.
  - apply ui_only_ret.
  - by apply ui_only_seq.
Qed.

Lemma ui_only_col2 : ui_only col2.
Proof.
  intros s. unfold col2.
  destruct (ui_only_st (Subheader "Related Articles Here") s) as (evs0 & Hui0 & Heq0).
  unfold mbind at 1, M_bind at 1. rewrite Heq0.
  unfold mbind at 1, M_bind at 1, get_session. cbn [session after_events].
  set (s0 := after_events s evs0).
  assert (Hrest : ui_only
    match search_results (session s) with
    | Some (Some p) =>
        for_each (default [] (results p)) show_article;;
        match answer p with
        | Some a =>
            if PyStr.truthy a then
              st (Subheader "AI-Generated Summary of Related Content");;
              st (StWrite a)
            else mret tt
        | None => mret tt
        end
    | Some None =>
        st (StWarning "Unable to fetch related articles. Please check the logs for more information.")
    | None => st (StInfo "Upload a PDF to see related articles.")
    end).
  { destruct (search_results (session s)) as [[p|]|]; try apply ui_only_st.
    apply ui_only_seq.
    - apply ui_only_for_each. intros x. apply ui_only_seq; apply ui_only_st.
    - destruct (answer p) as [a|]; [|apply ui_only_ret].
      destruct (PyStr.truthy a); [|apply ui_only_ret].
      apply ui_only_seq; apply ui_only_st. }
  destruct (Hrest s0) as (evs1 & Hui1 & Heq1).
  exists (evs1 ++ evs0)%list. split.
  - by rewrite forallb_app, Hui1, Hui0.
  - rewrite Heq1. subst s0. by rewrite after_events_app.
Qed.

Lemma wp_ui_only (m : M unit) (Q : result unit -> State -> Prop) s :
  ui_only m ->
  (forall evs, forallb is_ui evs = true -> Q (Val tt) (after_events s evs)) ->
  wp m Q s.
Proof.
  intros Hm HQ. destruct (Hm s) as (evs & Hui & Heq).
  unfold wp. rewrite Heq. by apply HQ.
Qed.

(** The transcript is drawn when [chat_history] is there. *)
Lemma wp_display_chat_history (Q : result unit -> State -> Prop) s h :
  chat_history (session s) = Some h ->
  (forall evs, forallb is_ui evs = true -> Q (Val tt) (after_events s evs)) ->
  wp display_chat_history Q s.
Proof.
  intros Hh HQ. unfold display_chat_history.
  apply wp_bind, wp_session_attr. rewrite Hh.
  apply wp_ui_only; [|exact HQ].
  apply ui_only_for_each. intros x. apply ui_only_st.
Qed.

(** *** One question *)

(** [ask] in a state that has a chat history: what it returns, and the
    state it leaves, by the outcome of the round trip. *)
Lemma ask_eq env (q : string) (s : State) (h : list Message) :
  chat_history (session s) = Some h ->
  exists s',
    ask env q s = (match turn_reply env s q with
                   | Returns _ => Val tt
                   | Raises e => Exc e
                   end, s') /\
    fs s' = fs s /\
    (exists evs, trace s' = (evs ++ trace s)%list /\ forallb quiet evs = true) /\
    gemini_file (session s') = gemini_file (session s) /\
    pdf_summary (session s') = pdf_summary (session s) /\
    pdf_title (session s') = pdf_title (session s) /\
    search_results (session s') = search_results (session s) /\
    (is_Some (chat_session (session s)) -> is_Some (chat_session (session s'))) /\
    chat_history (session s') =
      Some (h ++ user_turn q ::
              match turn_reply env s q with
              | Returns t => [assistant_turn t]
              | Raises _ => []
              end)%list.
Proof.
  destruct s as [fs0 tr [h0 gf cs su ti sr]]. simpl. intros ->.
  unfold ask, chat_history_append, chat_session_send_message, session_attr,
    modify_session, response_text, st, emit, call, turn_reply,
    mbind, M_bind, mret, M_ret. simpl.
  destruct cs as [cs|]; simpl.
  - destruct (chat_send_message env (calls SvSend tr) cs q) as [resp|e]; simpl.
    + destruct (text resp) as [t|e]; simpl.
      * eexists. split; [reflexivity|]. simpl. repeat split; try done.
        -- by exists [EvSendMessage q; EvUi (Spinner "Generating response...")].
        -- by rewrite <- app_assoc.
      * eexists. split; [reflexivity|]. simpl. repeat split; try done.
        by exists [EvSendMessage q; EvUi (Spinner "Generating response...")].
    + eexists. split; [reflexivity|]. simpl. repeat split; try done.
      by exists [EvSendMessage q; EvUi (Spinner "Generating response...")].
  - eexists. split; [reflexivity|]. simpl.
    split; [done|]. split; [by exists [EvUi (Spinner "Generating response...")]|].
    repeat split; done.
Qed.

(** *** A run in a session that has its document *)

Lemma kept_refl s : kept s s.
Proof. split; try done. by exists []. Qed.

Lemma kept_trans s1 s2 s3 : kept s1 s2 -> kept s2 s3 -> kept s1 s3.
Proof.
  intros [F1 (e1 & T1 & Q1) G1 S1 P1 R1 C1] [F2 (e2 & T2 & Q2) G2 S2 P2 R2 C2].
  split; try congruence.
  - exists (e2 ++ e1)%list. split.
    + by rewrite T2, T1, app_assoc.
    + by rewrite forallb_app, Q2, Q1.
  - auto.
Qed.

Lemma ui_quiet evs : forallb is_ui evs = true -> forallb quiet evs = true.
Proof.
  induction evs as [|e evs IH]; simpl; [done|].
  intros [He Hevs]%andb_prop. unfold quiet at 1. by rewrite He, IH.
Qed.

Lemma kept_after_ui s evs : forallb is_ui evs = true -> kept s (after_events s evs).
Proof.
  intros Hui. split; try done. exists evs. split; [done|by apply ui_quiet].
Qed.

Lemma kept_set_chat_history s h :
  kept s (mk_State (fs s) (trace s) (set_chat_history h (session s))).
Proof. split; try done. by exists []. Qed.

Lemma calls_quiet sv evs :
  sv <> SvSend -> forallb quiet evs = true -> calls sv evs = 0%nat.
Proof.
  intros Hsv. induction evs as [|e evs IH]; simpl; [done|].
  intros [He Hevs]%andb_prop.
  destruct e; try discriminate; simpl; auto.
  destruct sv; simpl; auto. done.
Qed.

(** A run that keeps the document makes no call to the upload, status,
    generation or search service. *)
Lemma kept_calls s s' sv : kept s s' -> sv <> SvSend ->
  calls sv (trace s') = calls sv (trace s).
Proof.
  intros [_ (evs & -> & Hq) _ _ _ _ _] Hsv.
  by rewrite calls_app, (calls_quiet sv evs Hsv Hq).
Qed.

Ltac wp_step :=
  lazymatch goal with
  | |- wp (mbind _ _) _ _ => apply wp_bind
  | |- wp (st _) _ _ => apply wp_st
  | |- wp (mret _) _ _ => apply wp_ret
  | |- wp get_session _ _ => apply wp_get_session
  | |- wp (modify_session _) _ _ => apply wp_modify_session
  | |- wp (session_attr _ _) _ _ => apply wp_session_attr
  end;
  cbn [session fs trace after_events chat_history gemini_file chat_session
       pdf_summary pdf_title search_results set_chat_history].

Lemma wp_ask env (q : string) (s : State) (h : list Message)
  (Q : result unit -> State -> Prop) :
  chat_history (session s) = Some h ->
  (forall s',
     kept s s' ->
     chat_history (session s') =
       Some (h ++ user_turn q ::
               match turn_reply env s q with
               | Returns t => [assistant_turn t]
               | Raises _ => []
               end)%list ->
     Q (match turn_reply env s q with
        | Returns _ => Val tt
        | Raises e => Exc e
        end) s') ->
  wp (ask env q) Q s.
Proof.
  intros Hh HQ.
  destruct (ask_eq env q s h Hh)
    as (s' & Hask & Hfs & Htr & Hgf & Hsu & Hti & Hsr & Hcs & Hh').
  unfold wp. rewrite Hask. cbn [fst snd]. apply HQ; [by split|exact Hh'].
Qed.

Lemma wp_display_then_col2 (Q : result unit -> State -> Prop) s h :
  chat_history (session s) = Some h ->
  (forall evs, forallb is_ui evs = true -> Q (Val tt) (after_events s evs)) ->
  wp display_chat_history
     (fun r s' =>
        match r with
        | Val _ => wp col2 Q s'
        | Exc e => Q (Exc e) s'
        | Diverge => Q Diverge s'
        end) s.
Proof.
  intros Hh HQ.
  eapply wp_display_chat_history; [exact Hh|]. intros evs1 Hui1.
  apply wp_ui_only; [apply ui_only_col2|]. intros evs2 Hui2.
  rewrite after_events_app. apply HQ. by rewrite forallb_app, Hui2, Hui1.
Qed.

Lemma turn_reply_after_ui env s evs q :
  forallb is_ui evs = true ->
  turn_reply env (after_events s evs) q = turn_reply env s q.
Proof.
  intros Hui. unfold turn_reply, after_events. simpl.
  by rewrite calls_app, (calls_ui _ _ Hui).
Qed.

(** [show_document] and [col2] in a state that has a chat history. *)
Lemma wp_show_document env (inp : Input) (s : State) (h : list Message) uf
  (Q : result unit -> State -> Prop) :
  uploaded_file inp = Some uf ->
  chat_history (session s) = Some h ->
  (forall s',
     kept s s' ->
     chat_history (session s') = Some (h ++ new_turns env s inp)%list ->
     Q (run_result env s inp) s') ->
  wp (show_document env inp;; col2) Q s.
Proof.
  intros Huf Hh HQ. unfold run_result, new_turns, asked in HQ. rewrite Huf in HQ.
  unfold show_document.
  repeat wp_step.
  destruct (pdf_summary (session s)) as [su|] eqn:Hsu.
  2: { apply HQ; [|by rewrite app_nil_r].
       rewrite !after_events_app. by apply kept_after_ui. }
  repeat wp_step.
  assert (Hplain : forall evs0, forallb is_ui evs0 = true ->
    (forall s', kept s s' -> chat_history (session s') = Some (h ++ [])%list ->
       Q (Val tt) s') ->
    wp display_chat_history
      (fun r s' =>
         match r with
         | Val _ => wp col2 Q s'
         | Exc e => Q (Exc e) s'
         | Diverge => Q Diverge s'
         end) (after_events s evs0)).
  { intros evs0 Hui0 HQ'. apply (wp_display_then_col2 _ _ h); [exact Hh|].
    intros evs Hui. rewrite after_events_app. apply HQ'.
    - apply kept_after_ui. by rewrite forallb_app, Hui, Hui0.
    - by rewrite app_nil_r. }
  assert (Hask : forall q evs0, forallb is_ui evs0 = true ->
    (forall s', kept s s' ->
       chat_history (session s') =
         Some (h ++ user_turn q ::
                 match turn_reply env s q with
                 | Returns t => [assistant_turn t]
                 | Raises _ => []
                 end)%list ->
       Q (match turn_reply env s q with
          | Returns _ => Val tt
          | Raises e => Exc e
          end) s') ->
    wp (ask env q)
      (fun r s' =>
         match r with
         | Val _ =>
             wp display_chat_history
               (fun r0 s'0 =>
                  match r0 with
                  | Val _ => wp col2 Q s'0
                  | Exc e => Q (Exc e) s'0
                  | Diverge => Q Diverge s'0
                  end) s'
         | Exc e => Q (Exc e) s'
         | Diverge => Q Diverge s'
         end) (after_events s evs0)).
  { intros q evs0 Hui0 HQ'. apply (wp_ask env q _ h); [exact Hh|].
    rewrite (turn_reply_after_ui env s evs0 q Hui0).
    intros s3 K3 Hh3.
    assert (K : kept s s3).
    { eapply kept_trans; [by apply kept_after_ui|exact K3]. }
    revert HQ' Hh3. destruct (turn_reply env s q) as [t|e]; intros HQ' Hh3;
      [|by apply HQ'].
    apply (wp_display_then_col2 _ _ _ Hh3). intros evs Hui.
    apply HQ'.
    - eapply kept_trans; [exact K|by apply kept_after_ui].
    - exact Hh3. }
  destruct (pdf_title (session s)) as [ti|] eqn:Hti; repeat wp_step;
    rewrite !after_events_app;
    (destruct (user_question inp) as [q|]; [destruct (PyStr.truthy q)|]);
    repeat wp_step;
    first [by apply Hask | by apply Hplain].
Qed.

Lemma wp_bind_inv {A B} (m : M A) (f : A -> M B) (Q : result B -> State -> Prop) s :
  wp (m ≫= f) Q s ->
  wp m (fun r s' =>
          match r with
          | Val a => wp (f a) Q s'
          | Exc e => Q (Exc e) s'
          | Diverge => Q Diverge s'
          end) s.
Proof.
  unfold wp, mbind, M_bind. by destruct (m s) as [[a|e|] s'].
Qed.

(** One run of the script in a session that has its document: nothing about
    the document is computed; the run ends as [run_result] says and adds
    [new_turns] to the chat history. *)
Lemma script_with_document env (fuel : nat) (inp : Input) (s : State) :
  has_document (session s) = true ->
  exists s',
    script env fuel inp s = (run_result env s inp, s') /\
    kept s s' /\
    chat_history (session s') =
      Some (default [] (chat_history (session s)) ++ new_turns env s inp)%list.
Proof.
  intros Hdoc.
  set (h := default [] (chat_history (session s))).
  pose (Q := fun (r : result unit) (s' : State) =>
               r = run_result env s inp /\ kept s s' /\
               chat_history (session s') = Some (h ++ new_turns env s inp)%list).
  enough (H : wp (script env fuel inp) Q s).
  { unfold wp in H. destruct (script env fuel inp s) as [r s'].
    exists s'. simpl in H. destruct H as (-> & K & Hh). done. }
  unfold has_document in Hdoc.
  destruct (gemini_file (session s)) as [gf|] eqn:Hgf; [clear Hdoc|discriminate].
  (* the state that holds the chat history after the first lines *)
  set (s0 := after_events s [EvUi (Subheader "Chat Interface")]).
  set (s1 := mk_State (fs s0) (trace s0) (set_chat_history h (session s0))).
  assert (K1 : kept s s1).
  { eapply kept_trans; [|apply kept_set_chat_history]. by apply kept_after_ui. }
  assert (Hh1 : chat_history (session s1) = Some h) by done.
  assert (Hr : forall q, turn_reply env s1 q = turn_reply env s q) by done.
  assert (Hres : run_result env s1 inp = run_result env s inp).
  { unfold run_result. simpl. destruct (uploaded_file inp); [|done].
    destruct (pdf_summary (session s)); [|done].
    destruct (asked inp); [|done]. by rewrite Hr. }
  assert (Hnew : new_turns env s1 inp = new_turns env s inp).
  { unfold new_turns. simpl. destruct (pdf_summary (session s)); [|done].
    destruct (asked inp); [|done]. by rewrite Hr. }
  assert (Hrest : wp
    (match uploaded_file inp with
     | Some uf =>
         ss ← get_session;
         (match gemini_file ss with
          | None => process_upload env fuel uf
          | Some _ => mret tt
          end);;
         show_document env inp
     | None => st (StInfo "Please upload a PDF file to start chatting.")
     end)
    (fun r s' =>
       match r with
       | Val _ => wp col2 Q s'
       | Exc e => Q (Exc e) s'
       | Diverge => Q Diverge s'
       end) s1).
  { destruct (uploaded_file inp) as [uf|] eqn:Huf.
    - repeat wp_step.
      change (gemini_file (session s1)) with (gemini_file (session s)).
      rewrite Hgf. repeat wp_step.
      apply (wp_bind_inv (show_document env inp) (fun _ => col2) Q s1).
      apply (wp_show_document env inp s1 h uf); [exact Huf|exact Hh1|].
      intros s' K' Hh'. rewrite Hres, Hnew in *.
      split; [done|]. split; [|done]. by eapply kept_trans.
    - repeat wp_step. apply wp_ui_only; [apply ui_only_col2|]. intros evs Hui.
      unfold Q, run_result, new_turns, asked. rewrite Huf.
      split; [done|]. split.
      + eapply kept_trans; [exact K1|]. rewrite after_events_app.
        apply kept_after_ui. by rewrite forallb_app, Hui.
      + simpl. destruct (pdf_summary (session s)); by rewrite app_nil_r. }
  unfold script, col1. repeat wp_step.
  destruct (chat_history (session s)) as [h0|] eqn:Hh0; repeat wp_step.
  - replace (after_events s [EvUi (Subheader "Chat Interface")]) with s1;
      [exact Hrest|].
    subst s1 s0 h. unfold after_events, set_chat_history. simpl.
    destruct s as [f t [h1 g c u ti r]]. simpl in *. by subst h1.
  - exact Hrest.
Qed.

Lemma kept_conversations s s' : kept s s' ->
  conversations (trace s') = conversations (trace s).
Proof.
  intros [_ (evs & -> & Hq) _ _ _ _ _].
  induction evs as [|e evs IH]; simpl; [done|].
  simpl in Hq. apply andb_prop in Hq as [He Hevs].
  destruct e; try discriminate; simpl; auto.
Qed.

Lemma kept_has_document s s' :
  kept s s' -> has_document (session s) = true -> has_document (session s') = true.
Proof. intros K. unfold has_document. by rewrite (kept_gemini_file _ _ K). Qed.

Lemma ready_has_document ss : ready ss = true -> has_document ss = true.
Proof.
  unfold ready, has_document.
  by destruct (chat_history ss), (gemini_file ss).
Qed.

Lemma kept_ready s s' h :
  kept s s' -> ready (session s) = true ->
  chat_history (session s') = Some h -> ready (session s') = true.
Proof.
  intros [_ _ G S P R C] Hr Hh. unfold ready in *.
  rewrite Hh, G, S, P, R.
  destruct (chat_history (session s)); [|done].
  destruct (gemini_file (session s)); [|done].
  destruct (chat_session (session s)) as [cs|]; [|done].
  destruct (C ltac:(by eexists)) as [cs' ->]. exact Hr.
Qed.

(** Any number of runs in a session that has its document. *)
Lemma runs_with_document env (fuel : nat) (inputs : list Input) : forall s : State,
  has_document (session s) = true ->
  kept s (runs env fuel inputs s) /\
  forall h, chat_history (session s) = Some h ->
    exists more,
      chat_history (session (runs env fuel inputs s)) = Some (h ++ more)%list.
Proof.
  induction inputs as [|inp inputs IH]; intros s Hdoc; simpl.
  - split; [apply kept_refl|]. intros h ->. exists []. by rewrite app_nil_r.
  - destruct (script_with_document env fuel inp s Hdoc) as (s1 & Hrun & K1 & Hh1).
    rewrite Hrun. simpl.
    destruct (IH s1 (kept_has_document _ _ K1 Hdoc)) as [K2 Hh2].
    split; [by eapply kept_trans|].
    intros h Hh. rewrite Hh in Hh1. simpl in Hh1.
    destruct (Hh2 _ Hh1) as (more & Hmore).
    exists (new_turns env s inp ++ more)%list. by rewrite Hmore, app_assoc.
Qed.

(** ** Properties of the script *)

(** C1, as amended: in a session that has a document stored (READY in
    particular), no run of the script processes an upload, whatever file the
    uploader holds: over any number of runs there is no call to the upload,
    status, generation or search service and no new conversation;
    DocumentSummary, DocumentTitle and SearchResultSet keep their values, so
    none is computed a second time; ChatHistory is not cleared, it only
    grows. *)
Theorem stored_document_is_not_reprocessed env (fuel : nat) (inputs : list Input)
  (s : State) (h : list Message) :
  has_document (session s) = true ->
  chat_history (session s) = Some h ->
  let s' := runs env fuel inputs s in
  (gemini_file (session s') = gemini_file (session s) /\
   pdf_summary (session s') = pdf_summary (session s) /\
   pdf_title (session s') = pdf_title (session s) /\
   search_results (session s') = search_results (session s)) /\
  (exists more, chat_history (session s') = Some (h ++ more)%list) /\
  (calls SvUpload (trace s') = calls SvUpload (trace s) /\
   calls SvGetFile (trace s') = calls SvGetFile (trace s) /\
   calls SvGenerate (trace s') = calls SvGenerate (trace s) /\
   calls SvSearch (trace s') = calls SvSearch (trace s) /\
   conversations (trace s') = conversations (trace s)).
Proof.
  intros Hdoc Hh s'.
  destruct (runs_with_document env fuel inputs s Hdoc) as [K Hmore].
  fold s' in K, Hmore. split; [|split].
  - by destruct K.
  - by apply Hmore.
  - repeat split; try (by apply kept_calls). by apply kept_conversations.
Qed.

(** ** Witnesses and the counterexample *)

(** C1 fails as stated: in a READY session with one exchange in its
    history, a run with another PDF in the uploader uploads nothing and
    leaves history, summary, title and search results of the first
    document in place. *)
Lemma reupload_is_not_processed :
  let s := Demo.chatting_state in
  let s' := (script Demo.env 5 (mk_Input (Some Demo.pdf_b) None) s).2 in
  ready (session s) = true /\
  session s' = session s /\
  chat_history (session s') =
    Some [user_turn "What year is this?"; assistant_turn "It is from 2024."] /\
  pdf_summary (session s') = Some "A report on renewable energy" /\
  pdf_title (session s') = Some "Renewable Energy Report" /\
  search_results (session s') = Some (Some Demo.payload) /\
  calls SvUpload (trace s') = calls SvUpload (trace s) /\
  ~ reupload_resets Demo.env 5 s Demo.pdf_b.
Proof.
  vm_compute. repeat split. intros [H _]. discriminate H.
Qed.

Lemma stored_document_is_not_reprocessed_witness :
  let s := Demo.chatting_state in
  let h := [user_turn "What year is this?"; assistant_turn "It is from 2024."] in
  let s' := runs Demo.env 5
              [mk_Input (Some Demo.pdf_b) None;
               mk_Input (Some Demo.pdf_b) (Some "And the author?")] s in
  (gemini_file (session s') = gemini_file (session s) /\
   pdf_summary (session s') = pdf_summary (session s) /\
   pdf_title (session s') = pdf_title (session s) /\
   search_results (session s') = search_results (session s)) /\
  (exists more, chat_history (session s') = Some (h ++ more)%list) /\
  (calls SvUpload (trace s') = calls SvUpload (trace s) /\
   calls SvGetFile (trace s') = calls SvGetFile (trace s) /\
   calls SvGenerate (trace s') = calls SvGenerate (trace s) /\
   calls SvSearch (trace s') = calls SvSearch (trace s) /\
   conversations (trace s') = conversations (trace s)).
Proof.
  intros s h.
  apply (stored_document_is_not_reprocessed Demo.env 5 _ s h); reflexivity.
Defined.

Lemma tavily_search_retries_witness :
  search_outcome_spec Demo.env "Articles related to: Renewable Energy Report" 3
                      Demo.fresh_state.
Proof.
  apply (tavily_search_retries Demo.env _ 3 Demo.fresh_state); [reflexivity|lia].
Defined.

Lemma tavily_search_blank_query_witness :
  tavily_search Demo.env "   " 3 Demo.ready_state = (Val None, Demo.ready_state).
Proof.
  apply tavily_search_blank_query. reflexivity.
Defined.

Lemma tavily_search_no_attempt_witness :
  tavily_search Demo.env "solar" 0 Demo.fresh_state = (Val None, Demo.fresh_state) /\
  tavily_search Demo.env "solar" (-2) Demo.fresh_state = (Val None, Demo.fresh_state).
Proof.
  split; apply tavily_search_no_attempt; lia.
Defined.

Lemma wait_for_file_active_result_witness :
  wait_for_file_active Demo.env 5 Demo.file Demo.fresh_state
  = (Val true,
     after_events Demo.fresh_state
       (poll_events "files/abc" 2 ++ [EvUi (Spinner "Processing file...")])).
Proof.
  destruct (wait_for_file_active_result Demo.env Demo.file
              (mk_File "files/abc" "ACTIVE") 2 5 Demo.fresh_state)
    as (_ & _ & H).
  - intros i Hi. destruct i as [|[|i]]; [reflexivity|reflexivity|lia].
  - reflexivity.
  - discriminate.
  - lia.
  - exact H.
Defined.

Lemma wait_for_file_active_unbounded_witness :
  (exists r s',
     r <> Diverge /\
     forall fuel, (2 <= fuel)%nat ->
       wait_for_file_active Demo.env fuel Demo.file Demo.fresh_state = (r, s')) /\
  (forall fuel,
     (wait_for_file_active Demo.stuck_env fuel Demo.file Demo.fresh_state).1
     = Diverge).
Proof.
  split.
  - destruct (wait_for_file_active_unbounded Demo.env Demo.file Demo.fresh_state)
      as (H & _ & _).
    destruct (H 2%nat eq_refl) as (r & s' & Hr & _ & Hrun).
    exists r, s'. split; [exact Hr|exact Hrun].
  - intros fuel.
    destruct (wait_for_file_active_unbounded Demo.stuck_env Demo.file
                Demo.fresh_state) as (_ & H & _).
    destruct (H (fun i => eq_refl) fuel) as (Hrun & _).
    rewrite Hrun. reflexivity.
Defined.

(** ** The session run through *)

(** The first upload brings the session to READY: summary, stripped title
    and search results are stored, the chat history is empty, the temporary
    file is gone, and the run has slept 2 + 2 seconds for the file and
    1 + 2 seconds for the search. *)
Example first_upload :
  ready (session Demo.ready_state) = true /\
  chat_history (session Demo.ready_state) = Some [] /\
  pdf_summary (session Demo.ready_state) = Some "A report on renewable energy" /\
  pdf_title (session Demo.ready_state) = Some "Renewable Energy Report" /\
  search_results (session Demo.ready_state) = Some (Some Demo.payload) /\
  fs Demo.ready_state = ∅ /\
  rev (sleeps (trace Demo.ready_state)) = [2; 2; 1; 2] /\
  calls SvUpload (trace Demo.ready_state) = 1%nat /\
  calls SvGetFile (trace Demo.ready_state) = 3%nat /\
  calls SvGenerate (trace Demo.ready_state) = 1%nat /\
  calls SvSearch (trace Demo.ready_state) = 3%nat.
Proof. vm_compute. repeat split. Qed.

Example search_third_time_lucky :
  exists s',
    tavily_search Demo.env "solar" 3 Demo.fresh_state = (Val (Some Demo.payload), s') /\
    rev (sleeps (trace s')) = [1; 2] /\
    calls SvSearch (trace s') = 3%nat.
Proof. eexists. vm_compute. repeat split. Qed.

Example search_gives_up :
  exists s',
    tavily_search Demo.env "solar" 2 Demo.fresh_state = (Val None, s') /\
    rev (sleeps (trace s')) = [1] /\
    calls SvSearch (trace s') = 2%nat.
Proof. eexists. vm_compute. repeat split. Qed.

Example file_fails :
  wait_for_file_active Demo.failing_env 5 Demo.file Demo.fresh_state
  = (Val false,
     after_events Demo.fresh_state
       [EvUi (StError "File files/abc failed to process");
        EvGetFile "files/abc"; EvSleep 2; EvGetFile "files/abc";
        EvUi (Spinner "Processing file...")]).
Proof. reflexivity. Qed.

(** * Further properties *)

(** ** [tavily_search]: what it never does *)

Lemma extends_by_refl P s : extends_by P s s.
Proof. repeat split. by exists []. Qed.

Lemma extends_by_trans P s1 s2 s3 :
  extends_by P s1 s2 -> extends_by P s2 s3 -> extends_by P s1 s3.
Proof.
  intros (F1 & S1 & e1 & T1 & Q1) (F2 & S2 & e2 & T2 & Q2).
  split; [congruence|]. split; [congruence|].
  exists (e2 ++ e1)%list. split.
  - by rewrite T2, T1, app_assoc.
  - by rewrite forallb_app, Q2, Q1.
Qed.

(** One attempt ends with a value whatever the service answers, makes one
    search call and adds only search events. *)
Lemma search_attempt_frame env query max_retries attempt s :
  exists r s',
    search_attempt env query max_retries attempt s = (Val r, s') /\
    extends_by search_event s s' /\
    calls SvSearch (trace s') = S (calls SvSearch (trace s)).
Proof.
  pose proof (search_attempt_eq env query max_retries attempt s) as H.
  simpl in H. rewrite H. clear H.
  destruct (search_answer env s query 0) as [p|e].
  - eexists _, _. split; [reflexivity|]. split; [|done].
    repeat split. by eexists [_; _; _].
  - destruct (is_http_error e); [destruct (attempt =? max_retries - 1)|];
      (eexists _, _; split; [reflexivity|]; split; [|done]; repeat split).
    + by eexists [_; _; _].
    + by eexists [_; _; _; _].
    + by eexists [_; _; _].
Qed.

Lemma for_attempts_frame env query max_retries (l : list Z) : forall s,
  exists r s',
    for_attempts (search_attempt env query max_retries) l s = (Val r, s') /\
    extends_by search_event s s' /\
    (calls SvSearch (trace s') <= calls SvSearch (trace s) + List.length l)%nat.
Proof.
  induction l as [|a l IH]; intros s; simpl.
  - exists None, s. split; [done|]. split; [apply extends_by_refl|lia].
  - destruct (search_attempt_frame env query max_retries a s)
      as (r1 & s1 & H1 & E1 & C1).
    unfold mbind, M_bind. rewrite H1.
    destruct r1 as [v|].
    + exists v, s1. split; [done|]. split; [done|lia].
    + destruct (IH s1) as (r & s' & H & E & C).
      exists r, s'. split; [done|]. split; [by eapply extends_by_trans|lia].
Qed.

Lemma tavily_search_frame env query max_retries s :
  exists r s',
    tavily_search env query max_retries s = (Val r, s') /\
    extends_by search_event s s' /\
    (calls SvSearch (trace s') <= calls SvSearch (trace s) + Z.to_nat max_retries)%nat.
Proof.
  unfold tavily_search. destruct (negb _).
  - exists None, s. split; [done|]. split; [apply extends_by_refl|lia].
  - destruct (for_attempts_frame env query max_retries (range max_retries) s)
      as (r & s' & H & E & C).
    exists r, s'. split; [done|]. split; [done|].
    unfold range in C. by rewrite length_map, length_seq in C.
Qed.

Lemma calls_search_events sv evs :
  sv <> SvSearch -> forallb search_event evs = true -> calls sv evs = 0%nat.
Proof.
  intros Hsv. induction evs as [|e evs IH]; simpl; [done|].
  intros [He Hevs]%andb_prop.
  destruct e; try discriminate; simpl; auto.
  destruct sv; simpl; auto. done.
Qed.

Lemma sleeps_app tr1 tr2 : sleeps (tr1 ++ tr2) = (sleeps tr1 ++ sleeps tr2)%list.
Proof.
  induction tr1 as [|e tr1 IH]; [done|]. destruct e; simpl; by rewrite ?IH.
Qed.

(** The back-off sleeps before attempt [n], for [n <= 34], are sleeps that
    [time.sleep] accepts: the longest is [2^33] seconds. *)
Lemma backoff_accepted (n : nat) :
  (n <= 34)%nat -> Forall (fun z => 0 <= z <= time_sleep_max) (backoff n).
Proof.
  intros Hn. unfold backoff, range. rewrite Nat2Z.id.
  apply Forall_forall. intros z Hz. apply list_elem_of_In in Hz.
  apply in_map_iff in Hz. destruct Hz as (i & <- & Hi).
  apply in_map_iff in Hi. destruct Hi as (k & <- & Hk).
  apply in_seq in Hk.
  assert (Hmax : time_sleep_max = 9223372036) by reflexivity.
  assert (H33 : 2 ^ 33 = 8589934592) by reflexivity.
  assert (2 ^ Z.of_nat k <= 2 ^ 33) by (apply Z.pow_le_mono_r; lia).
  assert (0 < 2 ^ Z.of_nat k) by (apply Z.pow_pos_nonneg; lia).
  lia.
Qed.

(** X1: with [max_retries] up to 35 (the script uses 3), [tavily_search]
    never raises and never hangs: for every query and every answer of the
    search service, a payload or an exception of class [Exception], it
    returns a value.  It touches neither the session nor the files, adds
    only search calls, log records and sleeps to the trace, makes at most
    [max_retries] search calls and calls no other service; every sleep is
    one that [time.sleep] accepts.  (From 36 attempts on, the back-off
    reaches [2^34] seconds, which is over [time_sleep_max].) *)
Theorem tavily_search_returns env (query : string) (max_retries : Z) (s : State) :
  max_retries <= 35 ->
  exists r s' evs,
    tavily_search env query max_retries s = (Val r, s') /\
    fs s' = fs s /\ session s' = session s /\
    trace s' = (evs ++ trace s)%list /\ forallb search_event evs = true /\
    Forall (fun z => 0 <= z <= time_sleep_max) (sleeps evs) /\
    (calls SvSearch (trace s') <= calls SvSearch (trace s) + Z.to_nat max_retries)%nat /\
    (forall sv, sv <> SvSearch -> calls sv (trace s') = calls sv (trace s)).
Proof.
  intros Hmax.
  destruct (tavily_search_frame env query max_retries s)
    as (r & s' & H & (F & S & evs & T & Q) & C).
  exists r, s', evs. repeat (split; [done|]). split; [|split; [done|]].
  - destruct (PyStr.all_space query) eqn:Hq.
    { unfold tavily_search in H. rewrite blank_guard, Hq in H.
      injection H as _ <-.
      symmetry in T. apply (app_inv_tail (trace s) evs []) in T.
      subst evs. constructor. }
    destruct (Z_le_gt_dec max_retries 0) as [H0|H0].
    { rewrite (tavily_search_empty_range env query max_retries s H0) in H.
      injection H as _ <-.
      symmetry in T. apply (app_inv_tail (trace s) evs []) in T.
      subst evs. constructor. }
    destruct (ending_attempt_exists env query max_retries s ltac:(lia))
      as (n & Hn & Hhttp & Hend).
    destruct (tavily_search_run env query max_retries n s Hq Hn Hhttp Hend)
      as (s'' & Hrun & _ & _ & _ & Hsl).
    rewrite H in Hrun. injection Hrun as _ <-.
    rewrite T, sleeps_app in Hsl. apply app_inv_tail in Hsl. rewrite Hsl.
    apply Forall_rev. apply backoff_accepted. lia.
  - intros sv Hsv. by rewrite T, calls_app, (calls_search_events sv evs Hsv Q).
Qed.

Lemma total_app l1 l2 : total (l1 ++ l2) = total l1 + total l2.
Proof. induction l1 as [|x l1 IH]; simpl; [done|]. rewrite IH. lia. Qed.

Lemma total_rev l : total (rev l) = total l.
Proof.
  induction l as [|x l IH]; simpl; [done|]. rewrite total_app, IH. simpl. lia.
Qed.

(** The back-off before attempts [1 .. n] adds up to [2^n - 1] seconds. *)
Lemma total_backoff (n : nat) : total (backoff n) = 2 ^ Z.of_nat n - 1.
Proof.
  unfold backoff, range. rewrite Nat2Z.id.
  induction n as [|n IH]; [done|].
  rewrite seq_S, !map_app, total_app, IH. simpl.
  rewrite Nat2Z.inj_succ, Z.pow_succ_r by lia. lia.
Qed.

(** X2: the time [tavily_search] spends sleeping is bounded by the retry
    count: for a query that is not blank and [max_retries >= 1] the sleeps
    of one call add up to [2^n - 1] seconds for some [n < max_retries], so
    to at most [2^(max_retries - 1) - 1] seconds (3 seconds for the default
    of 3 attempts). *)
Theorem tavily_search_sleeps_bounded env (query : string) (max_retries : Z) (s : State) :
  PyStr.all_space query = false ->
  1 <= max_retries ->
  exists r s' slept,
    tavily_search env query max_retries s = (r, s') /\
    sleeps (trace s') = (slept ++ sleeps (trace s))%list /\
    0 <= total slept <= 2 ^ (max_retries - 1) - 1.
Proof.
  intros Hq Hmax.
  destruct (ending_attempt_exists env query max_retries s Hmax)
    as (n & Hn & Hhttp & Hend).
  destruct (tavily_search_run env query max_retries n s Hq Hn Hhttp Hend)
    as (s' & Hrun & _ & _ & _ & Hsl).
  exists (Val (payload_of (search_answer env s query n))), s', (rev (backoff n)).
  split; [done|]. split; [done|].
  rewrite total_rev, total_backoff.
  assert (2 ^ Z.of_nat n <= 2 ^ (max_retries - 1))
    by (apply Z.pow_le_mono_r; lia).
  assert (0 < 2 ^ Z.of_nat n) by (apply Z.pow_pos_nonneg; lia).
  lia.
Qed.

(** ** [generate_title_from_summary]: what it never does *)

Lemma lstrip_head s : head_space (PyStr.lstrip s) = false.
Proof.
  induction s as [|c r IH]; simpl; [done|].
  destruct (PyStr.isspace c) eqn:Hc; simpl; [exact IH|exact Hc].
Qed.

Lemma rstrip_head s : head_space s = false -> head_space (PyStr.rstrip s) = false.
Proof.
  destruct s as [|c r]; simpl; [done|]. intros Hc.
  rewrite Hc, andb_false_r. exact Hc.
Qed.

Lemma rstrip_last s : last_space (PyStr.rstrip s) = false.
Proof.
  induction s as [|c r IH]; simpl; [done|].
  destruct (PyStr.rstrip r) as [|c' r'] eqn:Hr; simpl.
  - destruct (PyStr.isspace c) eqn:Hc; simpl; [done|exact Hc].
  - exact IH.
Qed.

(** [strip] leaves no whitespace at either end. *)
Lemma strip_trimmed s :
  head_space (PyStr.strip s) = false /\ last_space (PyStr.strip s) = false.
Proof.
  unfold PyStr.strip. split; [|apply rstrip_last].
  apply rstrip_head, lstrip_head.
Qed.

(** [strip] changes nothing in a string that has no whitespace at its
    ends. *)
Lemma lstrip_id s : head_space s = false -> PyStr.lstrip s = s.
Proof. destruct s as [|c r]; simpl; [done|]. by intros ->. Qed.

Lemma rstrip_id s : last_space s = false -> PyStr.rstrip s = s.
Proof.
  induction s as [|c r IH]; simpl; [done|].
  destruct r as [|c' r'].
  - simpl. by intros ->.
  - intros H. rewrite (IH H). reflexivity.
Qed.

Lemma strip_idempotent s : PyStr.strip (PyStr.strip s) = PyStr.strip s.
Proof.
  destruct (strip_trimmed s) as [Hh Hl].
  unfold PyStr.strip at 1. by rewrite (lstrip_id _ Hh), (rstrip_id _ Hl).
Qed.

Lemma generate_title_from_summary_eq env (summary : string) (s : State) :
  exists evs,
    generate_title_from_summary env summary s =
      (Val (title_of (model_generate_content env (calls SvGenerate (trace s))
                        (title_prompt summary))),
       mk_State (fs s) (evs ++ EvGenerate (title_prompt summary) :: trace s)%list
                (session s)) /\
    forallb (fun e => match e with EvLogError _ => true | _ => false end) evs = true.
Proof.
  unfold generate_title_from_summary, try_except, generate_content, response_text,
    logging_error, emit, call, mbind, M_bind, mret, M_ret, title_of.
  simpl.
  destruct (model_generate_content _ _ _) as [response|e]; simpl.
  - destruct (text response); simpl; [by exists []|by eexists [_]].
  - by eexists [_].
Qed.

(** X3: [generate_title_from_summary] never raises: for every summary and
    every behaviour of the generation service it returns a title, after
    exactly one generation call and no call to any other service, with the
    session and the files untouched.  The title has no whitespace at either
    end, and stripping it again changes nothing. *)
Theorem generate_title_never_raises env (summary : string) (s : State) :
  exists title s',
    generate_title_from_summary env summary s = (Val title, s') /\
    fs s' = fs s /\ session s' = session s /\
    calls SvGenerate (trace s') = S (calls SvGenerate (trace s)) /\
    (forall sv, sv <> SvGenerate -> calls sv (trace s') = calls sv (trace s)) /\
    head_space title = false /\ last_space title = false /\
    PyStr.strip title = title.
Proof.
  destruct (generate_title_from_summary_eq env summary s) as (evs & Heq & Hlog).
  assert (Hcalls : forall sv, calls sv evs = 0%nat).
  { intros sv. clear Heq. induction evs as [|e evs IH]; simpl; [done|].
    simpl in Hlog. apply andb_prop in Hlog as [He Hevs].
    destruct e; try discriminate. simpl. auto. }
  eexists _, _. split; [exact Heq|]. simpl.
  split; [done|]. split; [done|]. split.
  { rewrite calls_app, Hcalls. simpl. done. }
  split.
  { intros sv Hsv. rewrite calls_app, Hcalls. simpl.
    destruct sv; simpl; try done. }
  assert (Ht : head_space (title_of (model_generate_content env
                 (calls SvGenerate (trace s)) (title_prompt summary))) = false /\
               last_space (title_of (model_generate_content env
                 (calls SvGenerate (trace s)) (title_prompt summary))) = false).
  { unfold title_of. destruct (model_generate_content _ _ _) as [r|e]; [|done].
    destruct (text r); [apply strip_trimmed|done]. }
  destruct Ht as [Hh Hl]. split; [done|]. split; [done|].
  unfold PyStr.strip. by rewrite (lstrip_id _ Hh), (rstrip_id _ Hl).
Qed.

(** ** [wait_for_file_active]: failures of the status query and the frame *)

(** X4: [wait_for_file_active] does not catch a failure of the status
    query: when the query raises after [n] pending answers, the exception
    leaves the function, after [n + 1] queries and [n] sleeps, and no error
    is shown to the user by the function itself. *)
Theorem wait_for_file_active_query_raises env (file : File) (n fuel : nat)
  (e : exn) (s : State) :
  (forall i, (i < n)%nat -> pending (poll_answer env s file i) = true) ->
  poll_answer env s file n = Raises e ->
  (n <= fuel)%nat ->
  wait_for_file_active env fuel file s
  = (Exc e,
     after_events s (poll_events (name file) n
                     ++ [EvUi (Spinner "Processing file...")])).
Proof.
  intros Hpend He Hfuel.
  rewrite (wait_for_file_active_run env file n fuel s Hpend); [|by rewrite He|done].
  by rewrite He.
Qed.

Lemma wait_loop_frame env (file : File) (fuel : nat) : forall (cur : File) (s : State),
  exists r evs,
    wait_loop env fuel file cur s = (r, after_events s evs) /\
    forallb (poll_event (name file)) evs = true /\
    (calls SvGetFile evs <= fuel)%nat.
Proof.
  induction fuel as [|fuel IH]; intros cur s; simpl.
  - destruct (state_name cur =? "PROCESSING")%string.
    + exists Diverge, []. by rewrite after_events_nil.
    + exists (Val cur), []. by rewrite after_events_nil.
  - destruct (state_name cur =? "PROCESSING")%string.
    + unfold mbind, M_bind, time_sleep, emit, genai_get, call. simpl.
      destruct (genai_get_file env (calls SvGetFile (trace s)) (name file))
        as [f|e]; simpl.
      * destruct (IH f (mk_State (fs s) (EvGetFile (name file) :: EvSleep 2 :: trace s)
                                 (session s))) as (r & evs & H & P & C).
        exists r, (evs ++ [EvGetFile (name file); EvSleep 2])%list.
        rewrite H. split.
        { unfold after_events. simpl. by rewrite <- app_assoc. }
        split.
        { rewrite forallb_app, P. simpl. by rewrite String.eqb_refl. }
        rewrite calls_app. simpl. lia.
      * exists (Exc e), [EvGetFile (name file); EvSleep 2].
        split; [done|]. simpl. rewrite String.eqb_refl. split; [done|lia].
    + exists (Val cur), []. rewrite after_events_nil. split; [done|]. simpl.
      split; [done|lia].
Qed.

(** The shape of the trace of [wait_for_file_active], whatever happens. *)
Lemma wait_for_file_active_shape env (fuel : nat) (file : File) (s : State) :
  exists r evs shown,
    wait_for_file_active env fuel file s
    = (r, after_events s (shown ++ evs ++ [EvUi (Spinner "Processing file...")])) /\
    forallb (poll_event (name file)) evs = true /\
    (calls SvGetFile evs <= fuel + 1)%nat /\
    shown = (if returned_false r
             then [EvUi (StError ("File " +:+ name file +:+ " failed to process"))]
             else []).
Proof.
  unfold wait_for_file_active, st, emit, genai_get, call.
  unfold mbind at 1 2, M_bind at 1 2. simpl.
  destruct (genai_get_file env (calls SvGetFile (trace s)) (name file)) as [f|e];
    simpl.
  - unfold mbind at 1, M_bind at 1.
    destruct (wait_loop_frame env file fuel f
                (mk_State (fs s)
                   (EvGetFile (name file) :: EvUi (Spinner "Processing file...")
                    :: trace s) (session s))) as (r & evs & H & P & C).
    rewrite H. destruct r as [fin|e|]; simpl.
    + unfold mbind, M_bind, mret, M_ret, st, emit.
      destruct (state_name fin =? "ACTIVE")%string; simpl.
      * exists (Val true), (evs ++ [EvGetFile (name file)])%list, [].
        split; [unfold after_events; simpl; by rewrite <- !app_assoc|].
        split; [rewrite forallb_app, P; simpl; by rewrite String.eqb_refl|].
        split; [rewrite calls_app; simpl; lia|]. done.
      * exists (Val false), (evs ++ [EvGetFile (name file)])%list,
          [EvUi (StError ("File " +:+ name file +:+ " failed to process"))].
        split; [unfold after_events; simpl; by rewrite <- !app_assoc|].
        split; [rewrite forallb_app, P; simpl; by rewrite String.eqb_refl|].
        split; [rewrite calls_app; simpl; lia|]. done.
    + exists (Exc e), (evs ++ [EvGetFile (name file)])%list, [].
      split; [unfold after_events; simpl; by rewrite <- !app_assoc|].
      split; [rewrite forallb_app, P; simpl; by rewrite String.eqb_refl|].
      split; [rewrite calls_app; simpl; lia|]. done.
    + exists Diverge, (evs ++ [EvGetFile (name file)])%list, [].
      split; [unfold after_events; simpl; by rewrite <- !app_assoc|].
      split; [rewrite forallb_app, P; simpl; by rewrite String.eqb_refl|].
      split; [rewrite calls_app; simpl; lia|]. done.
  - exists (Exc e), [EvGetFile (name file)], [].
    split; [done|]. simpl. rewrite String.eqb_refl.
    split; [done|]. split; [lia|]. done.
Qed.

(** X5: whatever the status service answers and however much fuel there is,
    [wait_for_file_active] touches neither the session nor the files; what
    it adds to the trace is the spinner, then only status queries for this
    file and sleeps of exactly 2 seconds (at most [fuel + 1] queries), and
    last the error message if and only if it returns [False]. *)
Theorem wait_for_file_active_frame env (fuel : nat) (file : File) (s : State) :
  exists r evs shown,
    wait_for_file_active env fuel file s
    = (r, after_events s (shown ++ evs ++ [EvUi (Spinner "Processing file...")])) /\
    forallb (poll_event (name file)) evs = true /\
    (calls SvGetFile evs <= fuel + 1)%nat /\
    shown = (if returned_false r
             then [EvUi (StError ("File " +:+ name file +:+ " failed to process"))]
             else []).
Proof. apply wait_for_file_active_shape. Qed.

(** ** The first upload *)

Lemma wp_emit (e : event) (Q : result unit -> State -> Prop) s :
  Q (Val tt) (after_events s [e]) -> wp (emit e) Q s.
Proof. done. Qed.

Lemma wp_call {A} sv ev (oracle : nat -> outcome A) (Q : result A -> State -> Prop) s :
  Q (of_outcome (oracle (calls sv (trace s)))) (after_events s [ev]) ->
  wp (call sv ev oracle) Q s.
Proof. done. Qed.

Lemma wp_response_text (response : Response) (Q : result string -> State -> Prop) s :
  Q (of_outcome (text response)) s -> wp (response_text response) Q s.
Proof. done. Qed.

Lemma upload_to_gemini_eq env (uf : UploadedFile) (s : State) :
  let p := fresh (dom (fs s)) in
  upload_to_gemini env uf s =
    (of_outcome (upload_answer env s uf),
     after_events s [EvUnlink p; EvUploadFile p "application/pdf";
                     EvTmpWrite p (getvalue uf)]).
Proof.
  intros p.
  assert (Hp : fs s !! p = None).
  { apply not_elem_of_dom. apply is_fresh. }
  unfold upload_to_gemini, named_temporary_file_write, try_finally, genai_upload,
    os_unlink, call, mbind, M_bind, mret, M_ret, upload_answer, after_events.
  fold p. simpl. rewrite lookup_insert_eq. simpl.
  destruct (genai_upload_file _ _ _); simpl;
    by rewrite lookup_insert_eq, (delete_insert_id _ _ _ Hp).
Qed.

Lemma wp_upload_to_gemini env (uf : UploadedFile) (Q : result File -> State -> Prop) s :
  Q (of_outcome (upload_answer env s uf))
    (after_events s [EvUnlink (fresh (dom (fs s)));
                     EvUploadFile (fresh (dom (fs s))) "application/pdf";
                     EvTmpWrite (fresh (dom (fs s))) (getvalue uf)]) ->
  wp (upload_to_gemini env uf) Q s.
Proof. intros HQ. unfold wp. by rewrite upload_to_gemini_eq. Qed.

Lemma wp_generate_title env (summary : string) (Q : result string -> State -> Prop) s :
  (forall evs, forallb is_log_error evs = true ->
     Q (Val (title_of (model_generate_content env (calls SvGenerate (trace s))
                         (title_prompt summary))))
       (after_events s (evs ++ [EvGenerate (title_prompt summary)]))) ->
  wp (generate_title_from_summary env summary) Q s.
Proof.
  intros HQ. destruct (generate_title_from_summary_eq env summary s) as (evs & Heq & Hlog).
  unfold wp. rewrite Heq. simpl.
  specialize (HQ evs Hlog). unfold after_events in HQ.
  by rewrite <- app_assoc in HQ.
Qed.

Lemma wp_tavily_search env query max_retries (Q : result (option Payload) -> State -> Prop) s :
  (forall r evs,
     forallb search_event evs = true ->
     (calls SvSearch evs <= Z.to_nat max_retries)%nat ->
     (PyStr.all_space query = false -> 1 <= max_retries ->
      (1 <= calls SvSearch evs)%nat) ->
     Q (Val r) (after_events s evs)) ->
  wp (tavily_search env query max_retries) Q s.
Proof.
  intros HQ.
  destruct (tavily_search_frame env query max_retries s)
    as (r & s' & H & (F & S & evs & T & P) & C).
  unfold wp. rewrite H. simpl.
  replace s' with (after_events s evs).
  2: { destruct s'. unfold after_events. simpl in *. by subst. }
  apply HQ; [done| |].
  - rewrite T, calls_app in C. lia.
  - intros Hq Hmax.
    destruct (ending_attempt_exists env query max_retries s Hmax)
      as (n & Hn & Hhttp & Hend).
    destruct (tavily_search_run env query max_retries n s Hq Hn Hhttp Hend)
      as (s2 & Hrun & _ & _ & Hcalls & _).
    rewrite H in Hrun. inversion Hrun; subst s2.
    rewrite T, calls_app in Hcalls. lia.
Qed.

Lemma wp_wait_for_file_active env (file : File) (n fuel : nat)
  (Q : result bool -> State -> Prop) s :
  (forall i, (i < n)%nat -> pending (poll_answer env s file i) = true) ->
  pending (poll_answer env s file n) = false ->
  (n <= fuel)%nat ->
  (let v := verdict file (poll_answer env s file n)
              (after_events s (poll_events (name file) n
                               ++ [EvUi (Spinner "Processing file...")])) in
   Q v.1 v.2) ->
  wp (wait_for_file_active env fuel file) Q s.
Proof.
  intros Hpend Hfin Hfuel HQ. unfold wp.
  by rewrite (wait_for_file_active_run env file n fuel s Hpend Hfin Hfuel).
Qed.

Lemma calls_poll_events sv nm n :
  calls sv (poll_events nm n) =
    match sv with SvGetFile => S n | _ => 0%nat end.
Proof.
  unfold poll_events. rewrite calls_app.
  assert (H : calls sv (sleep_polls nm n) = match sv with SvGetFile => n | _ => 0%nat end).
  { induction n as [|n IH]; simpl; [by destruct sv|].
    destruct sv; simpl; by rewrite IH. }
  rewrite H. destruct sv; simpl; lia.
Qed.

Lemma conversations_poll_events nm n (tr : list event) :
  conversations (poll_events nm n ++ tr) = conversations tr.
Proof.
  unfold poll_events. rewrite <- app_assoc.
  induction n as [|k IH]; simpl; [done|exact IH].
Qed.

Lemma calls_log_errors sv evs : forallb is_log_error evs = true -> calls sv evs = 0%nat.
Proof.
  induction evs as [|e evs IH]; simpl; [done|].
  intros [He Hevs]%andb_prop. destruct e; try discriminate. simpl. auto.
Qed.

Ltac simp_state :=
  unfold set_chat_history, set_gemini_file, set_chat_session, set_pdf_summary,
    set_pdf_title, set_search_results, after_events;
  cbn [session fs trace chat_history gemini_file chat_session pdf_summary
       pdf_title search_results of_outcome app fst snd].

Ltac wp_step2 :=
  first
    [ wp_step
    | lazymatch goal with
      | |- wp (emit _) _ _ => apply wp_emit
      | |- wp (call _ _ _) _ _ => apply wp_call
      | |- wp (response_text _) _ _ => apply wp_response_text
      | |- wp (upload_to_gemini _ _) _ _ => apply wp_upload_to_gemini
      end ];
  simp_state.

Lemma wp_mono {A} (m : M A) (Q Q' : result A -> State -> Prop) s :
  wp m Q s -> (forall r s', Q r s' -> Q' r s') -> wp m Q' s.
Proof. unfold wp. auto. Qed.

(** The state after the first lines of the script: the header is drawn and
    the chat history is there. *)
Lemma first_lines_state (s : State) :
  match chat_history (session s) with
  | Some _ => after_events s [EvUi (Subheader "Chat Interface")]
  | None =>
      mk_State (fs s) (EvUi (Subheader "Chat Interface") :: trace s)
               (set_chat_history [] (session s))
  end = started s.
Proof.
  unfold started, after_events, set_chat_history.
  destruct s as [f t [h g c u ti r]]. simpl. by destruct h.
Qed.

(** The script in a session that has no document, with a file in the
    uploader: the first lines, the upload block, what is shown, the side
    column. *)
Lemma wp_script_no_document env (fuel : nat) (inp : Input) (uf : UploadedFile)
  (Q : result unit -> State -> Prop) (s : State) :
  gemini_file (session s) = None ->
  uploaded_file inp = Some uf ->
  wp (process_upload env fuel uf)
     (fun r s1 =>
        match r with
        | Val _ => wp (after_upload env inp) Q s1
        | Exc e => Q (Exc e) s1
        | Diverge => Q Diverge s1
        end) (started s) ->
  wp (script env fuel inp) Q s.
Proof.
  intros Hgf Huf H. rewrite <- first_lines_state in H.
  unfold script, col1. rewrite Huf.
  repeat wp_step.
  destruct (chat_history (session s)) as [h|] eqn:Hh; repeat wp_step;
    rewrite Hgf;
    (eapply wp_mono; [exact H|]); intros [[]|e|] s1 HQ; try exact HQ;
    exact (wp_bind_inv (show_document env inp) (fun _ => col2) Q s1 HQ).
Qed.

Lemma wp_result {A} (m : M A) (Q : result A -> State -> Prop) s :
  wp m Q s -> exists r s', m s = (r, s') /\ Q r s'.
Proof. unfold wp. intros H. exists (m s).1, (m s).2. by destruct (m s). Qed.

(** X6: when the remote upload raises on the first upload, the run ends
    with that exception and nothing of the document is stored: the session
    is as after the first lines of the script (the chat history is there),
    there is still no document handle, so that the next run uploads again;
    the temporary file is gone and no other service has been called. *)
Theorem upload_failure_stores_nothing env (fuel : nat) (inp : Input)
  (uf : UploadedFile) (e : exn) (s : State) :
  gemini_file (session s) = None ->
  uploaded_file inp = Some uf ->
  upload_answer env s uf = Raises e ->
  exists s',
    script env fuel inp s = (Exc e, s') /\
    session s' =
      set_chat_history (default [] (chat_history (session s))) (session s) /\
    gemini_file (session s') = None /\
    fs s' = fs s /\
    calls SvUpload (trace s') = S (calls SvUpload (trace s)) /\
    (forall sv, sv <> SvUpload -> calls sv (trace s') = calls sv (trace s)).
Proof.
  intros Hgf Huf Hup.
  pose (Q := fun (r : result unit) (s' : State) =>
    r = Exc e /\
    session s' =
      set_chat_history (default [] (chat_history (session s))) (session s) /\
    gemini_file (session s') = None /\
    fs s' = fs s /\
    calls SvUpload (trace s') = S (calls SvUpload (trace s)) /\
    (forall sv, sv <> SvUpload -> calls sv (trace s') = calls sv (trace s))).
  enough (H : wp (script env fuel inp) Q s).
  { destruct (wp_result _ _ _ H) as (r & s' & Hrun & -> & HQ). by exists s'. }
  apply (wp_script_no_document env fuel inp uf Q s Hgf Huf).
  unfold process_upload. repeat wp_step2.
  change (upload_answer env _ uf) with (upload_answer env s uf).
  rewrite Hup. simp_state.
  unfold Q. simpl. rewrite Hgf. repeat split; try done.
  intros sv Hsv. by destruct sv.
Qed.

(** X7: when the file ends in a state that is neither "PROCESSING" nor
    "ACTIVE" on the first upload, the handle is stored all the same, no
    conversation is opened and nothing is generated or searched; the run
    shows the error, then the success message "PDF processed successfully!"
    of line 190, opens the summary panel and ends with the [AttributeError]
    of reading the summary that is not there. *)
Theorem failed_processing_run env (fuel : nat) (inp : Input) (uf : UploadedFile)
  (f fa : File) (n : nat) (s : State) :
  gemini_file (session s) = None ->
  pdf_summary (session s) = None ->
  uploaded_file inp = Some uf ->
  upload_answer env s uf = Returns f ->
  (forall i, (i < n)%nat -> pending (poll_answer env s f i) = true) ->
  poll_answer env s f n = Returns fa ->
  state_name fa <> "PROCESSING" ->
  state_name fa <> "ACTIVE" ->
  (n <= fuel)%nat ->
  exists s' older,
    script env fuel inp s = (Exc (mk_exn AttributeError "pdf_summary"), s') /\
    trace s' =
      EvUi (Expander "PDF Summary")
      :: EvUi (StSuccess "PDF processed successfully!")
      :: EvUi (StError ("File " +:+ name f +:+ " failed to process"))
      :: older /\
    gemini_file (session s') = Some f /\
    pdf_summary (session s') = None /\
    chat_session (session s') = chat_session (session s) /\
    pdf_title (session s') = pdf_title (session s) /\
    search_results (session s') = search_results (session s) /\
    calls SvGenerate (trace s') = calls SvGenerate (trace s) /\
    calls SvSend (trace s') = calls SvSend (trace s) /\
    calls SvSearch (trace s') = calls SvSearch (trace s) /\
    conversations (trace s') = conversations (trace s).
Proof.
  intros Hgf Hsu Huf Hup Hpend Hfin Hnp Hna Hfuel.
  pose (Q := fun (r : result unit) (s' : State) =>
    r = Exc (mk_exn AttributeError "pdf_summary") /\
    (exists older,
       trace s' =
         EvUi (Expander "PDF Summary")
         :: EvUi (StSuccess "PDF processed successfully!")
         :: EvUi (StError ("File " +:+ name f +:+ " failed to process"))
         :: older) /\
    gemini_file (session s') = Some f /\
    pdf_summary (session s') = None /\
    chat_session (session s') = chat_session (session s) /\
    pdf_title (session s') = pdf_title (session s) /\
    search_results (session s') = search_results (session s) /\
    calls SvGenerate (trace s') = calls SvGenerate (trace s) /\
    calls SvSend (trace s') = calls SvSend (trace s) /\
    calls SvSearch (trace s') = calls SvSearch (trace s) /\
    conversations (trace s') = conversations (trace s)).
  enough (H : wp (script env fuel inp) Q s).
  { destruct (wp_result _ _ _ H) as (r & s' & Hrun & -> & (older & Htr) & HQ).
    by exists s', older. }
  apply (wp_script_no_document env fuel inp uf Q s Hgf Huf).
  unfold started, process_upload. repeat wp_step2.
  change (upload_answer env _ uf) with (upload_answer env s uf).
  rewrite Hup. simp_state.
  repeat wp_step2.
  eapply (wp_wait_for_file_active env f n fuel); [exact Hpend| |exact Hfuel|].
  { change (pending (poll_answer env s f n) = false). rewrite Hfin. simpl.
    by apply String.eqb_neq. }
  change (poll_answer env _ f n) with (poll_answer env s f n).
  rewrite Hfin. cbn [verdict].
  apply String.eqb_neq in Hna. rewrite Hna.
  cbn [fst snd]. simp_state.
  repeat wp_step2.
  unfold after_upload, show_document. repeat wp_step2. rewrite Hsu.
  unfold Q. simpl. split; [done|]. split; [by eexists|].
  rewrite <- !app_assoc, !calls_app, !calls_poll_events,
    conversations_poll_events. simpl.
  repeat split; done.
Qed.

Ltac send_count s :=
  match goal with
  | |- context [calls SvSend ?tr] =>
      lazymatch tr with
      | trace s => fail
      | _ =>
          replace (calls SvSend tr) with (calls SvSend (trace s))
            by (simpl; rewrite <- ?app_assoc, ?calls_app, ?calls_poll_events;
                reflexivity)
      end
  end.

(** X8: when the request for the summary fails on the first upload (the
    round trip raises, or the reply has no text to read), the run ends with
    that exception after one chat message; the handle and the conversation
    are stored, but no summary, title or search result, and the chat history
    is not reset; nothing is generated or searched. *)
Theorem summary_failure_run env (fuel : nat) (inp : Input) (uf : UploadedFile)
  (f fa : File) (n : nat) (e : exn) (s : State) :
  gemini_file (session s) = None ->
  uploaded_file inp = Some uf ->
  upload_answer env s uf = Returns f ->
  (forall i, (i < n)%nat -> pending (poll_answer env s f i) = true) ->
  poll_answer env s f n = Returns fa ->
  state_name fa = "ACTIVE" ->
  (n <= fuel)%nat ->
  summary_answer env s f = Raises e ->
  exists s',
    script env fuel inp s = (Exc e, s') /\
    gemini_file (session s') = Some f /\
    is_Some (chat_session (session s')) /\
    chat_history (session s') = Some (default [] (chat_history (session s))) /\
    pdf_summary (session s') = pdf_summary (session s) /\
    pdf_title (session s') = pdf_title (session s) /\
    search_results (session s') = search_results (session s) /\
    calls SvSend (trace s') = S (calls SvSend (trace s)) /\
    calls SvGenerate (trace s') = calls SvGenerate (trace s) /\
    calls SvSearch (trace s') = calls SvSearch (trace s) /\
    conversations (trace s') = S (conversations (trace s)).
Proof.
  intros Hgf Huf Hup Hpend Hfin Hact Hfuel Hsum.
  pose (Q := fun (r : result unit) (s' : State) =>
    r = Exc e /\
    gemini_file (session s') = Some f /\
    is_Some (chat_session (session s')) /\
    chat_history (session s') = Some (default [] (chat_history (session s))) /\
    pdf_summary (session s') = pdf_summary (session s) /\
    pdf_title (session s') = pdf_title (session s) /\
    search_results (session s') = search_results (session s) /\
    calls SvSend (trace s') = S (calls SvSend (trace s)) /\
    calls SvGenerate (trace s') = calls SvGenerate (trace s) /\
    calls SvSearch (trace s') = calls SvSearch (trace s) /\
    conversations (trace s') = S (conversations (trace s))).
  enough (H : wp (script env fuel inp) Q s).
  { destruct (wp_result _ _ _ H) as (r & s' & Hrun & -> & HQ). by exists s'. }
  apply (wp_script_no_document env fuel inp uf Q s Hgf Huf).
  unfold started, process_upload. repeat wp_step2.
  change (upload_answer env _ uf) with (upload_answer env s uf).
  rewrite Hup. simp_state.
  repeat wp_step2.
  eapply (wp_wait_for_file_active env f n fuel); [exact Hpend| |exact Hfuel|].
  { change (pending (poll_answer env s f n) = false). rewrite Hfin. simpl.
    by rewrite Hact. }
  change (poll_answer env _ f n) with (poll_answer env s f n).
  rewrite Hfin. cbn [verdict]. rewrite Hact.
  cbn [String.eqb Ascii.eqb Bool.eqb fst snd]. simp_state.
  unfold start_chat, chat_session_send_message.
  repeat wp_step2.
  send_count s.
  unfold summary_answer, summary_session in Hsum.
  destruct (chat_send_message env (calls SvSend (trace s)) _ _) as [resp|e'];
    simp_state.
  - repeat wp_step2. rewrite Hsum. simp_state.
    unfold Q. simpl.
    rewrite <- !app_assoc, !calls_app, !calls_poll_events,
      conversations_poll_events. simpl.
    repeat split; try done; by eexists.
  - inversion Hsum; subst e'.
    unfold Q. simpl.
    rewrite <- !app_assoc, !calls_app, !calls_poll_events,
      conversations_poll_events. simpl.
    repeat split; try done; by eexists.
Qed.

Lemma conversations_app tr1 tr2 :
  conversations (tr1 ++ tr2) = (conversations tr1 + conversations tr2)%nat.
Proof.
  induction tr1 as [|e tr1 IH]; simpl; [done|].
  destruct e; simpl; by rewrite ?IH.
Qed.

Lemma conversations_none (P : event -> bool) evs :
  (forall seed, P (EvStartChat seed) = false) ->
  forallb P evs = true -> conversations evs = 0%nat.
Proof.
  intros HP. induction evs as [|e evs IH]; simpl; [done|].
  intros [He Hevs]%andb_prop.
  destruct e; simpl; auto. by rewrite HP in He.
Qed.

(** What is shown when no question is asked, in a session with a summary
    and a chat history: widgets only. *)
Lemma wp_show_document_quiet env (inp : Input) (uf : UploadedFile) (s : State)
  (su : string) (h : list Message) (Q : result unit -> State -> Prop) :
  uploaded_file inp = Some uf ->
  asked inp = None ->
  pdf_summary (session s) = Some su ->
  chat_history (session s) = Some h ->
  (forall evs, forallb is_ui evs = true -> Q (Val tt) (after_events s evs)) ->
  wp (show_document env inp;; col2) Q s.
Proof.
  intros Huf Hask Hsu Hh HQ. unfold asked in Hask. rewrite Huf in Hask.
  unfold show_document. repeat wp_step. rewrite Hsu. repeat wp_step.
  assert (Hplain : forall evs0, forallb is_ui evs0 = true ->
    wp display_chat_history
      (fun r s' =>
         match r with
         | Val _ => wp col2 Q s'
         | Exc e => Q (Exc e) s'
         | Diverge => Q Diverge s'
         end) (after_events s evs0)).
  { intros evs0 Hui0. apply (wp_display_then_col2 _ _ h); [exact Hh|].
    intros evs Hui. rewrite after_events_app. apply HQ.
    by rewrite forallb_app, Hui, Hui0. }
  destruct (pdf_title (session s)) as [ti|]; repeat wp_step;
    rewrite !after_events_app;
    (destruct (user_question inp) as [q|];
     [destruct (PyStr.truthy q); [discriminate|]|]);
    repeat wp_step; by apply Hplain.
Qed.

Ltac call_count sv s :=
  match goal with
  | |- context [calls sv ?tr] =>
      lazymatch tr with
      | trace s => fail
      | _ =>
          replace (calls sv tr) with (calls sv (trace s))
            by (simpl; rewrite <- ?app_assoc, ?calls_app, ?calls_poll_events;
                reflexivity)
      end
  end.

(** X9: the first upload, when every step is answered: the upload returns
    a handle, the file becomes "ACTIVE" after [n] pending answers and the
    summary request brings a text.  The run ends well and the session is
    READY: the handle and the summary are stored, the title is the stripped
    text of the generation call or "Untitled Document" if that call failed,
    the search result is stored (a payload or [None]), and the chat history
    is empty whatever it held.  The run made one upload, [n + 1] status
    queries, one conversation with one message, one generation call and
    between one and three search calls, and left no temporary file. *)
Theorem first_upload_reaches_ready env (fuel : nat) (inp : Input)
  (uf : UploadedFile) (f fa : File) (n : nat) (t : string) (s : State) :
  gemini_file (session s) = None ->
  uploaded_file inp = Some uf ->
  asked inp = None ->
  upload_answer env s uf = Returns f ->
  (forall i, (i < n)%nat -> pending (poll_answer env s f i) = true) ->
  poll_answer env s f n = Returns fa ->
  state_name fa = "ACTIVE" ->
  (n <= fuel)%nat ->
  summary_answer env s f = Returns t ->
  exists s' sr,
    script env fuel inp s = (Val tt, s') /\
    ready (session s') = true /\
    chat_history (session s') = Some [] /\
    gemini_file (session s') = Some f /\
    pdf_summary (session s') = Some t /\
    pdf_title (session s') =
      Some (title_of (model_generate_content env (calls SvGenerate (trace s))
                        (title_prompt t))) /\
    search_results (session s') = Some sr /\
    fs s' = fs s /\
    calls SvUpload (trace s') = S (calls SvUpload (trace s)) /\
    calls SvGetFile (trace s') = (calls SvGetFile (trace s) + n + 1)%nat /\
    calls SvSend (trace s') = S (calls SvSend (trace s)) /\
    calls SvGenerate (trace s') = S (calls SvGenerate (trace s)) /\
    (calls SvSearch (trace s) + 1 <= calls SvSearch (trace s')
     <= calls SvSearch (trace s) + 3)%nat /\
    conversations (trace s') = S (conversations (trace s)).
Proof.
  intros Hgf Huf Hask Hup Hpend Hfin Hact Hfuel Hsum.
  pose (Q := fun (r : result unit) (s' : State) =>
    r = Val tt /\
    ready (session s') = true /\
    chat_history (session s') = Some [] /\
    gemini_file (session s') = Some f /\
    pdf_summary (session s') = Some t /\
    pdf_title (session s') =
      Some (title_of (model_generate_content env (calls SvGenerate (trace s))
                        (title_prompt t))) /\
    (exists sr, search_results (session s') = Some sr) /\
    fs s' = fs s /\
    calls SvUpload (trace s') = S (calls SvUpload (trace s)) /\
    calls SvGetFile (trace s') = (calls SvGetFile (trace s) + n + 1)%nat /\
    calls SvSend (trace s') = S (calls SvSend (trace s)) /\
    calls SvGenerate (trace s') = S (calls SvGenerate (trace s)) /\
    (calls SvSearch (trace s) + 1 <= calls SvSearch (trace s')
     <= calls SvSearch (trace s) + 3)%nat /\
    conversations (trace s') = S (conversations (trace s))).
  enough (H : wp (script env fuel inp) Q s).
  { destruct (wp_result _ _ _ H)
      as (r & s' & Hrun & -> & ? & ? & ? & ? & ? & (sr & ?) & ?).
    by exists s', sr. }
  apply (wp_script_no_document env fuel inp uf Q s Hgf Huf).
  unfold started, process_upload. repeat wp_step2.
  change (upload_answer env _ uf) with (upload_answer env s uf).
  rewrite Hup. simp_state.
  repeat wp_step2.
  eapply (wp_wait_for_file_active env f n fuel); [exact Hpend| |exact Hfuel|].
  { change (pending (poll_answer env s f n) = false). rewrite Hfin. simpl.
    by rewrite Hact. }
  change (poll_answer env _ f n) with (poll_answer env s f n).
  rewrite Hfin. cbn [verdict]. rewrite Hact.
  cbn [String.eqb Ascii.eqb Bool.eqb fst snd]. simp_state.
  unfold start_chat, chat_session_send_message.
  repeat wp_step2.
  call_count SvSend s.
  unfold summary_answer, summary_session in Hsum.
  destruct (chat_send_message env (calls SvSend (trace s)) _ _) as [resp|e'];
    [|discriminate].
  simp_state. repeat wp_step2. rewrite Hsum. simp_state. repeat wp_step2.
  apply wp_generate_title. intros evs_log Hlog.
  call_count SvGenerate s.
  simp_state. repeat wp_step2.
  apply wp_tavily_search. intros sr evs_search Hsearch Hmost Hleast.
  specialize (Hleast eq_refl ltac:(lia)).
  simp_state. repeat wp_step2.
  unfold after_upload.
  eapply (wp_show_document_quiet env inp uf _ t []); [done|done|done|done|].
  intros evs_ui Hui. unfold Q. simpl.
  split; [done|]. split; [done|]. split; [done|]. split; [done|].
  split; [done|]. split; [done|]. split; [by eexists|]. split; [done|].
  repeat (rewrite <- ?app_assoc, ?calls_app, ?conversations_app,
            ?calls_poll_events, ?conversations_poll_events;
          progress cbn [calls conversations is_call service_of service_eqb app]).
  rewrite ?calls_app, ?conversations_app, ?calls_poll_events,
    ?conversations_poll_events.
  rewrite !(calls_ui _ _ Hui), !(calls_log_errors _ _ Hlog).
  rewrite (conversations_none is_ui evs_ui (fun _ => eq_refl) Hui).
  rewrite (conversations_none is_log_error evs_log (fun _ => eq_refl) Hlog).
  rewrite (conversations_none search_event evs_search (fun _ => eq_refl) Hsearch).
  rewrite !(calls_search_events SvUpload), !(calls_search_events SvGetFile),
    !(calls_search_events SvSend), !(calls_search_events SvGenerate)
    by done.
  change (Z.to_nat 3) with 3%nat in Hmost.
  pose proof (conversations_poll_events (name f) n []) as Hconv.
  rewrite app_nil_r in Hconv. simpl in Hconv.
  repeat split; lia.
Qed.

(** ** Runs without a file, and sessions that cannot go on *)

(** A run without a file only draws. *)
Lemma run_without_file_ui env (fuel : nat) (q : option string) (s : State) :
  exists evs,
    script env fuel (mk_Input None q) s
    = (Val tt,
       mk_State (fs s) (evs ++ trace s)%list
                (set_chat_history (default [] (chat_history (session s)))
                                  (session s))) /\
    forallb is_ui evs = true.
Proof.
  pose (Q := fun (r : result unit) (s' : State) =>
    r = Val tt /\
    exists evs,
      s' = mk_State (fs s) (evs ++ trace s)%list
             (set_chat_history (default [] (chat_history (session s)))
                               (session s)) /\
      forallb is_ui evs = true).
  enough (H : wp (script env fuel (mk_Input None q)) Q s).
  { destruct (wp_result _ _ _ H) as (r & s' & Hrun & -> & evs & -> & Hui).
    by exists evs. }
  unfold script, col1. cbn [uploaded_file]. repeat wp_step.
  destruct (chat_history (session s)) as [h|] eqn:Hh; repeat wp_step;
    (apply wp_ui_only; [apply ui_only_col2|]); intros evs Hui;
    (split; [done|]);
    exists (evs ++ [EvUi (StInfo "Please upload a PDF file to start chatting.");
                    EvUi (Subheader "Chat Interface")])%list.
  - split.
    + unfold after_events, set_chat_history. simpl.
      destruct s as [f t [h1 g c u ti r]]. simpl in *. subst h1.
      by rewrite <- app_assoc.
    + by rewrite forallb_app, Hui.
  - split.
    + unfold after_events. simpl. by rewrite <- app_assoc.
    + by rewrite forallb_app, Hui.
Qed.

(** X10: without a file in the uploader a run ends well, calls no service
    and ignores the question; it changes nothing in the session but to
    create the empty chat history if there was none, in every session
    state. *)
Theorem run_without_file env (fuel : nat) (q : option string) (s : State) :
  exists evs,
    script env fuel (mk_Input None q) s
    = (Val tt,
       mk_State (fs s) (evs ++ trace s)%list
                (set_chat_history (default [] (chat_history (session s)))
                                  (session s))) /\
    forallb is_ui evs = true.
Proof. apply run_without_file_ui. Qed.

(** One run in a session that has a document and a chat history but no
    summary. *)
Lemma script_without_summary env (fuel : nat) (inp : Input) (s : State)
  (h : list Message) :
  has_document (session s) = true ->
  pdf_summary (session s) = None ->
  chat_history (session s) = Some h ->
  exists evs,
    script env fuel inp s
    = (match uploaded_file inp with
       | Some _ => Exc (mk_exn AttributeError "pdf_summary")
       | None => Val tt
       end, after_events s evs) /\
    forallb is_ui evs = true.
Proof.
  intros Hdoc Hsu Hh. unfold has_document in Hdoc.
  destruct (gemini_file (session s)) as [gf|] eqn:Hgf; [clear Hdoc|discriminate].
  pose (Q := fun (r : result unit) (s' : State) =>
    r = match uploaded_file inp with
        | Some _ => Exc (mk_exn AttributeError "pdf_summary")
        | None => Val tt
        end /\
    exists evs, s' = after_events s evs /\ forallb is_ui evs = true).
  enough (H : wp (script env fuel inp) Q s).
  { destruct (wp_result _ _ _ H) as (r & s' & Hrun & -> & evs & -> & Hui).
    by exists evs. }
  unfold script, col1. repeat wp_step. rewrite Hh. repeat wp_step.
  destruct (uploaded_file inp) as [uf|]; repeat wp_step.
  - rewrite Hgf. unfold show_document. repeat wp_step. rewrite Hsu.
    split; [done|]. rewrite !after_events_app. by eexists.
  - apply wp_ui_only; [apply ui_only_col2|]. intros evs Hui.
    split; [done|]. rewrite !after_events_app. eexists. split; [done|].
    rewrite !forallb_app, Hui. done.
Qed.

(** X11: a session that has a document but no summary (the state a failed
    processing or a failed summary request leaves behind) cannot go on:
    every run with a file in the uploader ends with the [AttributeError] of
    reading the summary, and over any number of runs the session stays as
    it is and no service is called, so the document is never processed
    again and no question is ever sent. *)
Theorem session_without_summary_is_stuck env (fuel : nat) (inputs : list Input)
  (s : State) (h : list Message) :
  has_document (session s) = true ->
  pdf_summary (session s) = None ->
  chat_history (session s) = Some h ->
  (forall inp, is_Some (uploaded_file inp) ->
     (script env fuel inp s).1 = Exc (mk_exn AttributeError "pdf_summary")) /\
  session (runs env fuel inputs s) = session s /\
  fs (runs env fuel inputs s) = fs s /\
  (forall sv, calls sv (trace (runs env fuel inputs s)) = calls sv (trace s)).
Proof.
  intros Hdoc Hsu Hh. split.
  - intros inp [uf Huf].
    destruct (script_without_summary env fuel inp s h Hdoc Hsu Hh) as (evs & Hrun & _).
    rewrite Hrun, Huf. done.
  - revert s Hdoc Hsu Hh. induction inputs as [|inp inputs IH]; intros s Hdoc Hsu Hh;
      simpl; [done|].
    destruct (script_without_summary env fuel inp s h Hdoc Hsu Hh) as (evs & Hrun & Hui).
    rewrite Hrun. simpl.
    destruct (IH (after_events s evs) Hdoc Hsu Hh) as (Hs & Hf & Hc).
    split; [done|]. split; [done|].
    intros sv. rewrite Hc. unfold after_events. simpl.
    by rewrite calls_app, (calls_ui _ _ Hui).
Qed.

(** X12: READY is kept: once the session is READY it is READY after any
    number of further runs, whatever the inputs and the answers of the
    services; there is no way back to a session without document. *)
Theorem ready_is_kept env (fuel : nat) (inputs : list Input) (s : State) :
  ready (session s) = true ->
  ready (session (runs env fuel inputs s)) = true.
Proof.
  intros Hready.
  destruct (runs_with_document env fuel inputs s (ready_has_document _ Hready))
    as [K Hmore].
  assert (Hh : exists h, chat_history (session s) = Some h).
  { unfold ready in Hready. destruct (chat_history (session s)); [by eexists|done]. }
  destruct Hh as [h Hh]. destruct (Hmore h Hh) as (more & Hh').
  by eapply kept_ready.
Qed.

(** ** One question, one round trip *)

Lemma sent_ui evs tr : forallb is_ui evs = true -> sent (evs ++ tr) = sent tr.
Proof.
  induction evs as [|e evs IH]; simpl; [done|].
  intros [He Hevs]%andb_prop. destruct e; try discriminate. auto.
Qed.

(** [ask] when the conversation is open: the question is sent once, whatever
    becomes of it. *)
Lemma wp_ask_trace env (q : string) (s : State) (h : list Message) (cs : ChatSession)
  (Q : result unit -> State -> Prop) :
  chat_history (session s) = Some h ->
  chat_session (session s) = Some cs ->
  (forall r s' h',
     trace s' = EvSendMessage q :: EvUi (Spinner "Generating response...") :: trace s ->
     chat_history (session s') = Some h' ->
     Q r s') ->
  wp (ask env q) Q s.
Proof.
  intros Hh Hcs HQ. destruct s as [fs0 tr [h0 gf cs0 su ti sr]]. simpl in *.
  subst h0 cs0.
  unfold wp, ask, chat_history_append, chat_session_send_message, session_attr,
    modify_session, response_text, st, emit, call, mbind, M_bind, mret, M_ret.
  simpl.
  destruct (chat_send_message env (calls SvSend tr) cs q) as [resp|e]; simpl.
  - destruct (text resp) as [t|e]; simpl; by eapply HQ.
  - by eapply HQ.
Qed.

(** X13: in the READY state a run with a file in the uploader sends exactly
    the question asked, once, whether the round trip succeeds or fails (no
    retry), and sends nothing when no question is asked or the question is
    the empty string. *)
Theorem one_round_trip_per_question env (fuel : nat) (inp : Input) (s : State) :
  ready (session s) = true ->
  is_Some (uploaded_file inp) ->
  sent (trace (script env fuel inp s).2) =
    match asked inp with
    | Some q => q :: sent (trace s)
    | None => sent (trace s)
    end.
Proof.
  intros Hready [uf Huf].
  change (wp (script env fuel inp)
             (fun _ s' => sent (trace s') =
                match asked inp with
                | Some q => q :: sent (trace s)
                | None => sent (trace s)
                end) s).
  destruct s as [fs0 tr [h gf cs su ti sr]]. unfold ready in Hready. simpl in Hready.
  destruct h as [h|]; [|done]. destruct gf as [gf|]; [|done].
  destruct cs as [cs|]; [|done]. destruct su as [su|]; [|done].
  destruct ti as [ti|]; [|done]. destruct sr as [sr|]; [|done].
  unfold asked, script, col1, show_document. rewrite Huf. cbn [trace].
  repeat wp_step.
  assert (Hshow : forall s1 h1 q1,
    chat_history (session s1) = Some h1 ->
    sent (trace s1) = q1 ->
    wp display_chat_history
      (fun r s' =>
         match r with
         | Val _ => wp col2 (fun _ s'0 => sent (trace s'0) = q1) s'
         | Exc e => sent (trace s') = q1
         | Diverge => sent (trace s') = q1
         end) s1).
  { intros s1 h1 q1 Hh1 Hs1.
    apply (wp_display_then_col2 (fun _ s'0 => sent (trace s'0) = q1) s1 h1 Hh1).
    intros evs Hui. unfold after_events. simpl. by rewrite sent_ui. }
  destruct (user_question inp) as [q|]; [destruct (PyStr.truthy q)|];
    repeat wp_step.
  - eapply wp_ask_trace; [reflexivity|reflexivity|].
    intros r s' h' Htr Hh'.
    assert (Hs : sent (trace s') = q :: sent tr) by (by rewrite Htr).
    destruct r as [[]|e|]; try exact Hs.
    by apply (Hshow s' h').
  - by apply (Hshow _ h).
  - by apply (Hshow _ h).
Qed.

(** ** What is drawn *)

Lemma for_each_emits {A} (w : A -> event) (l : list A) : forall s,
  for_each l (fun x => emit (w x)) s = (Val tt, after_events s (rev (map w l))).
Proof.
  induction l as [|x l IH]; intros s; simpl.
  - by rewrite after_events_nil.
  - unfold mbind, M_bind, emit at 1. rewrite IH. unfold after_events. simpl.
    by rewrite <- app_assoc.
Qed.

(** X14: the transcript shows the chat history as it is: one chat message
    per entry, oldest first, with the person's avatar for the role "user"
    and the robot's for any other role; nothing else changes.  With no chat
    history in the session it raises [AttributeError]. *)
Theorem display_chat_history_shows_history (s : State) :
  display_chat_history s =
    match chat_history (session s) with
    | Some h => (Val tt, after_events s (rev (map chat_widget h)))
    | None => (Exc (mk_exn AttributeError "chat_history"), s)
    end.
Proof.
  unfold display_chat_history, session_attr, mbind, M_bind.
  destruct (chat_history (session s)) as [h|]; [|done].
  apply (for_each_emits chat_widget h s).
Qed.



(** ** What a whole session can spend *)

Lemma wp_wait_any env (fuel : nat) (file : File) (Q : result bool -> State -> Prop) s :
  (forall r evs,
     forallb (poll_or_ui (name file)) evs = true -> Q r (after_events s evs)) ->
  wp (wait_for_file_active env fuel file) Q s.
Proof.
  intros HQ.
  destruct (wait_for_file_active_shape env fuel file s)
    as (r & evs & shown & Heq & Hpoll & _ & Hshown).
  unfold wp. rewrite Heq. simpl. apply HQ.
  rewrite !forallb_app. simpl.
  assert (H1 : forallb (poll_or_ui (name file)) evs = true).
  { clear Heq. induction evs as [|e evs IH]; simpl; [done|].
    simpl in Hpoll. apply andb_prop in Hpoll as [He Hevs].
    unfold poll_or_ui at 1. by rewrite He, IH. }
  rewrite H1. subst shown. by destruct (returned_false r).
Qed.

Lemma calls_poll_or_ui sv nm evs :
  sv <> SvGetFile -> forallb (poll_or_ui nm) evs = true -> calls sv evs = 0%nat.
Proof.
  intros Hsv. induction evs as [|e evs IH]; simpl; [done|].
  intros [He Hevs]%andb_prop.
  destruct e; try discriminate; simpl; auto.
  destruct sv; simpl; auto. done.
Qed.

Lemma conversations_poll_or_ui nm evs :
  forallb (poll_or_ui nm) evs = true -> conversations evs = 0%nat.
Proof. by apply conversations_none. Qed.

Lemma conversations_quiet evs : forallb quiet evs = true -> conversations evs = 0%nat.
Proof. by apply conversations_none. Qed.

Lemma spends_kept s0 s s' :
  has_document (session s) = true -> kept s s' -> spends s0 s -> spends s0 s'.
Proof.
  intros Hdoc K. unfold spends.
  rewrite (kept_has_document _ _ K Hdoc), Hdoc.
  rewrite !(kept_calls _ _ _ K), (kept_conversations _ _ K); done.
Qed.

Ltac count_norm :=
  repeat (rewrite <- ?app_assoc, ?calls_app, ?conversations_app;
          progress cbn [calls conversations is_call service_of service_eqb app]);
  rewrite ?calls_app, ?conversations_app.

Ltac zero_counts :=
  repeat match goal with
  | H : forallb is_ui ?e = true |- context [calls ?sv ?e] =>
      rewrite (calls_ui sv e H)
  | H : forallb is_ui ?e = true |- context [conversations ?e] =>
      rewrite (conversations_none is_ui e (fun _ => eq_refl) H)
  | H : forallb is_log_error ?e = true |- context [calls ?sv ?e] =>
      rewrite (calls_log_errors sv e H)
  | H : forallb is_log_error ?e = true |- context [conversations ?e] =>
      rewrite (conversations_none is_log_error e (fun _ => eq_refl) H)
  | H : forallb (poll_or_ui ?nm) ?e = true |- context [calls SvGenerate ?e] =>
      rewrite (calls_poll_or_ui SvGenerate nm e ltac:(done) H)
  | H : forallb (poll_or_ui ?nm) ?e = true |- context [calls SvSearch ?e] =>
      rewrite (calls_poll_or_ui SvSearch nm e ltac:(done) H)
  | H : forallb (poll_or_ui ?nm) ?e = true |- context [conversations ?e] =>
      rewrite (conversations_poll_or_ui nm e H)
  | H : forallb search_event ?e = true |- context [calls SvGenerate ?e] =>
      rewrite (calls_search_events SvGenerate e ltac:(done) H)
  | H : forallb search_event ?e = true |- context [conversations ?e] =>
      rewrite (conversations_none search_event e (fun _ => eq_refl) H)
  end.

Ltac spends_leaf :=
  unfold spends, has_document; cbn [session gemini_file trace];
  count_norm; zero_counts; repeat split; lia.

(** The first run with a file in a session that has no document. *)
Lemma first_run_spends env (fuel : nat) (inp : Input) (uf : UploadedFile) (s : State) :
  gemini_file (session s) = None ->
  uploaded_file inp = Some uf ->
  wp (script env fuel inp) (fun _ s' => spends s s') s.
Proof.
  intros Hgf Huf.
  apply (wp_script_no_document env fuel inp uf _ s Hgf Huf).
  unfold started, process_upload. repeat wp_step2.
  destruct (upload_answer env _ uf) as [f|e]; simp_state.
  2: { unfold spends, has_document. cbn [session gemini_file trace].
       rewrite Hgf. count_norm. done. }
  repeat wp_step2.
  apply wp_wait_any. intros r evs_poll Hpoll.
  assert (Htail : forall s1 h,
    has_document (session s1) = true ->
    chat_history (session s1) = Some h ->
    spends s s1 ->
    wp (after_upload env inp) (fun _ s' => spends s s') s1).
  { intros s1 h Hdoc Hh Hsp. unfold after_upload.
    apply (wp_show_document env inp s1 h uf); [exact Huf|exact Hh|].
    intros s' K _. by apply (spends_kept s s1 s'). }
  destruct r as [[|]|e|]; simp_state.
  - unfold start_chat, chat_session_send_message. repeat wp_step2.
    destruct (chat_send_message env _ _ _) as [resp|e]; simp_state.
    + repeat wp_step2. destruct (text resp) as [t|e]; simp_state.
      * repeat wp_step2.
        apply wp_generate_title. intros evs_log Hlog. simp_state. repeat wp_step2.
        apply wp_tavily_search. intros sr evs_search Hsearch Hmost _.
        change (Z.to_nat 3) with 3%nat in Hmost.
        simp_state. repeat wp_step2.
        apply (Htail _ []); [done|done|]. spends_leaf.
      * spends_leaf.
    + spends_leaf.
  - repeat wp_step2.
    apply (Htail _ (default [] (chat_history (session s)))); [done|done|].
    spends_leaf.
  - spends_leaf.
  - spends_leaf.
Qed.

(** One run, from any state. *)
Lemma run_spends env (fuel : nat) (inp : Input) (s0 s : State) :
  spends s0 s -> spends s0 (script env fuel inp s).2.
Proof.
  intros Hsp.
  destruct (has_document (session s)) eqn:Hdoc.
  - destruct (script_with_document env fuel inp s Hdoc) as (s' & Hrun & K & _).
    rewrite Hrun. simpl. by apply (spends_kept s0 s s').
  - assert (Hgf : gemini_file (session s) = None).
    { unfold has_document in Hdoc. by destruct (gemini_file (session s)). }
    assert (Hsame : calls SvGenerate (trace s) = calls SvGenerate (trace s0) /\
                    calls SvSearch (trace s) = calls SvSearch (trace s0) /\
                    conversations (trace s) = conversations (trace s0)).
    { unfold spends in Hsp. by rewrite Hdoc in Hsp. }
    destruct Hsame as (Hg & Hq & Hc).
    assert (H : spends s (script env fuel inp s).2).
    { destruct inp as [[uf|] q].
      - apply (first_run_spends env fuel (mk_Input (Some uf) q) uf s Hgf eq_refl).
      - destruct (run_without_file_ui env fuel q s) as (evs & Hrun & Hui).
        rewrite Hrun. unfold spends, has_document. simpl. rewrite Hgf.
        by rewrite !calls_app, !conversations_app, !(calls_ui _ _ Hui),
          (conversations_none is_ui evs (fun _ => eq_refl) Hui). }
    unfold spends in H |- *. rewrite <- Hg, <- Hq, <- Hc. exact H.
Qed.

Lemma runs_spend env (fuel : nat) (inputs : list Input) : forall s0 s,
  spends s0 s -> spends s0 (runs env fuel inputs s).
Proof.
  induction inputs as [|inp inputs IH]; intros s0 s Hsp; simpl; [done|].
  apply IH. by apply run_spends.
Qed.

(** X16: what a session can spend on its document, from any state, over
    any number of runs, whatever the user does and the services answer: at
    most one title generation call, at most three search calls and at most
    one conversation opened.  (Uploads and status queries have no such
    bound: a failed upload is tried again by the next run.) *)
Theorem session_spends_once env (fuel : nat) (inputs : list Input) (s : State) :
  let s' := runs env fuel inputs s in
  (calls SvGenerate (trace s') <= calls SvGenerate (trace s) + 1)%nat /\
  (calls SvSearch (trace s') <= calls SvSearch (trace s) + 3)%nat /\
  (conversations (trace s') <= conversations (trace s) + 1)%nat.
Proof.
  intros s'.
  assert (H0 : spends s s).
  { unfold spends. destruct (has_document (session s)); repeat split; lia. }
  pose proof (runs_spend env fuel inputs s s H0) as H. fold s' in H.
  unfold spends in H. destruct (has_document (session s')); lia.
Qed.

(** ** Witnesses of the further properties *)

Lemma tavily_search_sleeps_bounded_witness :
  exists r s' slept,
    tavily_search Demo.env "solar" 3 Demo.fresh_state = (r, s') /\
    sleeps (trace s') = (slept ++ sleeps (trace Demo.fresh_state))%list /\
    0 <= total slept <= 3.
Proof.
  apply (tavily_search_sleeps_bounded Demo.env "solar" 3 Demo.fresh_state);
    [reflexivity|lia].
Defined.

Lemma wait_for_file_active_query_raises_witness :
  wait_for_file_active Demo.flaky_env 5 Demo.file Demo.fresh_state
  = (Exc Demo.offline,
     after_events Demo.fresh_state
       (poll_events "files/abc" 1 ++ [EvUi (Spinner "Processing file...")])).
Proof.
  apply (wait_for_file_active_query_raises Demo.flaky_env Demo.file 1 5
           Demo.offline Demo.fresh_state).
  - intros i Hi. destruct i as [|i]; [reflexivity|lia].
  - reflexivity.
  - lia.
Defined.

Lemma upload_failure_stores_nothing_witness :
  exists s',
    script Demo.offline_env 5 (mk_Input (Some Demo.pdf_a) None) Demo.fresh_state
    = (Exc Demo.offline, s') /\
    gemini_file (session s') = None /\
    fs s' = ∅ /\
    calls SvUpload (trace s') = 1%nat.
Proof.
  destruct (upload_failure_stores_nothing Demo.offline_env 5
              (mk_Input (Some Demo.pdf_a) None) Demo.pdf_a Demo.offline
              Demo.fresh_state eq_refl eq_refl eq_refl)
    as (s' & Hrun & _ & Hgf & Hfs & Hup & _).
  exists s'. split; [exact Hrun|]. split; [exact Hgf|]. split; [exact Hfs|exact Hup].
Defined.

Lemma failed_processing_run_witness :
  exists s' older,
    script Demo.failing_env 5 (mk_Input (Some Demo.pdf_a) None) Demo.fresh_state
    = (Exc (mk_exn AttributeError "pdf_summary"), s') /\
    trace s' =
      EvUi (Expander "PDF Summary")
      :: EvUi (StSuccess "PDF processed successfully!")
      :: EvUi (StError "File files/abc failed to process")
      :: older /\
    gemini_file (session s') = Some Demo.file /\
    pdf_summary (session s') = None.
Proof.
  destruct (failed_processing_run Demo.failing_env 5
              (mk_Input (Some Demo.pdf_a) None) Demo.pdf_a Demo.file
              (mk_File "files/abc" "FAILED") 1 Demo.fresh_state)
    as (s' & older & Hrun & Htr & Hgf & Hsu & _);
    [reflexivity|reflexivity|reflexivity|reflexivity| |reflexivity|discriminate
    |discriminate|lia|].
  - intros i Hi. destruct i as [|i]; [reflexivity|lia].
  - exists s', older. split; [exact Hrun|]. split; [exact Htr|].
    split; [exact Hgf|exact Hsu].
Defined.

Lemma summary_failure_run_witness :
  exists s',
    script Demo.mute_env 5 (mk_Input (Some Demo.pdf_a) None) Demo.fresh_state
    = (Exc Demo.quota, s') /\
    gemini_file (session s') = Some Demo.file /\
    is_Some (chat_session (session s')) /\
    pdf_summary (session s') = None /\
    calls SvSend (trace s') = 1%nat /\
    calls SvGenerate (trace s') = 0%nat.
Proof.
  destruct (summary_failure_run Demo.mute_env 5
              (mk_Input (Some Demo.pdf_a) None) Demo.pdf_a Demo.file
              (mk_File "files/abc" "ACTIVE") 2 Demo.quota Demo.fresh_state)
    as (s' & Hrun & Hgf & Hcs & _ & Hsu & _ & _ & Hsend & Hgen & _);
    [reflexivity|reflexivity|reflexivity| |reflexivity|reflexivity|lia|reflexivity|].
  - intros i Hi. destruct i as [|[|i]]; [reflexivity|reflexivity|lia].
  - exists s'. split; [exact Hrun|]. split; [exact Hgf|]. split; [exact Hcs|].
    split; [exact Hsu|]. split; [exact Hsend|exact Hgen].
Defined.

Lemma first_upload_reaches_ready_witness :
  exists s',
    script Demo.env 5 (mk_Input (Some Demo.pdf_a) None) Demo.fresh_state
    = (Val tt, s') /\
    ready (session s') = true /\
    chat_history (session s') = Some [] /\
    pdf_summary (session s') = Some "A report on renewable energy" /\
    pdf_title (session s') = Some "Renewable Energy Report" /\
    calls SvGetFile (trace s') = 3%nat.
Proof.
  destruct (first_upload_reaches_ready Demo.env 5
              (mk_Input (Some Demo.pdf_a) None) Demo.pdf_a Demo.file
              (mk_File "files/abc" "ACTIVE") 2 "A report on renewable energy"
              Demo.fresh_state)
    as (s' & sr & Hrun & Hready & Hh & _ & Hsu & Hti & _ & _ & _ & Hpoll & _);
    [reflexivity|reflexivity|reflexivity|reflexivity| |reflexivity|reflexivity
    |lia|reflexivity|].
  - intros i Hi. destruct i as [|[|i]]; [reflexivity|reflexivity|lia].
  - exists s'. split; [exact Hrun|]. split; [exact Hready|]. split; [exact Hh|].
    split; [exact Hsu|]. split; [exact Hti|exact Hpoll].
Defined.

Lemma session_without_summary_is_stuck_witness :
  (script Demo.env 5 (mk_Input (Some Demo.pdf_b) (Some "What year is this?"))
          Demo.stuck_state).1
  = Exc (mk_exn AttributeError "pdf_summary") /\
  session (runs Demo.env 5
             [mk_Input (Some Demo.pdf_b) None;
              mk_Input None None;
              mk_Input (Some Demo.pdf_a) (Some "What year is this?")]
             Demo.stuck_state)
  = session Demo.stuck_state.
Proof.
  destruct (session_without_summary_is_stuck Demo.env 5
              [mk_Input (Some Demo.pdf_b) None;
               mk_Input None None;
               mk_Input (Some Demo.pdf_a) (Some "What year is this?")]
              Demo.stuck_state [] eq_refl eq_refl eq_refl)
    as (Hrun & Hsess & _).
  split; [|exact Hsess].
  apply (Hrun (mk_Input (Some Demo.pdf_b) (Some "What year is this?"))).
  by eexists.
Defined.

Lemma ready_is_kept_witness :
  ready (session (runs Demo.env 5
                    [mk_Input (Some Demo.pdf_b) (Some "What broke?");
                     mk_Input None None;
                     mk_Input (Some Demo.pdf_b) (Some "What year is this?")]
                    Demo.ready_state)) = true.
Proof.
  apply (ready_is_kept Demo.env 5 _ Demo.ready_state). reflexivity.
Defined.

Lemma one_round_trip_per_question_witness :
  sent (trace (script Demo.env 5 (mk_Input (Some Demo.pdf_a) (Some "What broke?"))
                      Demo.ready_state).2)
  = ["What broke?"; "Provide the summary."].
Proof.
  apply (one_round_trip_per_question Demo.env 5
           (mk_Input (Some Demo.pdf_a) (Some "What broke?")) Demo.ready_state);
    [reflexivity|by eexists].
Defined.

Lemma tavily_search_returns_witness :
  exists r s' evs,
    tavily_search Demo.env "Articles related to: Renewable Energy Report" 3
                  Demo.fresh_state = (Val r, s') /\
    fs s' = fs Demo.fresh_state /\ session s' = session Demo.fresh_state /\
    trace s' = (evs ++ trace Demo.fresh_state)%list /\
    forallb search_event evs = true /\
    Forall (fun z => 0 <= z <= time_sleep_max) (sleeps evs) /\
    (calls SvSearch (trace s') <=
       calls SvSearch (trace Demo.fresh_state) + Z.to_nat 3)%nat /\
    (forall sv, sv <> SvSearch ->
       calls sv (trace s') = calls sv (trace Demo.fresh_state)).
Proof.
  apply (tavily_search_returns Demo.env
           "Articles related to: Renewable Energy Report" 3 Demo.fresh_state).
  lia.
Defined.

(** * The chat turn, exactly *)

(** [ask] when the chat history and the conversation are there: the state
    it leaves, by the answer of the chat service. *)
Lemma ask_exact env (q : string) (s : State) (h : list Message) (cs : ChatSession) :
  chat_history (session s) = Some h ->
  chat_session (session s) = Some cs ->
  ask env q s =
    (match turn_reply env s q with Returns _ => Val tt | Raises e => Exc e end,
     mk_State (fs s)
       (EvSendMessage q :: EvUi (Spinner "Generating response...") :: trace s)
       (after_question env s h cs q)).
Proof.
  destruct s as [fs0 tr [h0 gf cs0 su ti sr]]. simpl. intros -> ->.
  unfold ask, chat_history_append, chat_session_send_message, session_attr,
    modify_session, response_text, st, emit, call, after_question, turn_reply,
    conversation_after, recorded, mbind, M_bind, mret, M_ret.
  simpl.
  destruct (chat_send_message env (calls SvSend tr) cs q) as [resp|e]; simpl.
  - destruct (text resp) as [t|e]; simpl.
    + unfold set_chat_history, set_chat_session. simpl.
      by rewrite <- app_assoc.
    + reflexivity.
  - reflexivity.
Qed.

(** One run in the READY state with a question: the run ends as the turn
    does; the trace gains the widgets drawn before the round trip, the round
    trip, and the widgets drawn after it (none when the turn failed); the
    session is [after_question]. *)
Lemma script_ready_question env (fuel : nat) (inp : Input) (s : State)
  (q : string) (h : list Message) (cs : ChatSession) :
  ready (session s) = true ->
  chat_history (session s) = Some h ->
  chat_session (session s) = Some cs ->
  asked inp = Some q ->
  exists evs1 evs2,
    forallb is_ui evs1 = true /\ forallb is_ui evs2 = true /\
    script env fuel inp s =
      (match turn_reply env s q with Returns _ => Val tt | Raises e => Exc e end,
       mk_State (fs s) (evs2 ++ EvSendMessage q :: evs1 ++ trace s)
                (after_question env s h cs q)) /\
    (forall e, turn_reply env s q = Raises e -> evs2 = []).
Proof.
  intros Hready Hh Hcs Hask.
  pose (Q := fun (r : result unit) (s' : State) =>
    exists evs1 evs2,
      forallb is_ui evs1 = true /\ forallb is_ui evs2 = true /\
      r = match turn_reply env s q with Returns _ => Val tt | Raises e => Exc e end /\
      s' = mk_State (fs s) (evs2 ++ EvSendMessage q :: evs1 ++ trace s)
                    (after_question env s h cs q) /\
      (forall e, turn_reply env s q = Raises e -> evs2 = [])).
  enough (H : wp (script env fuel inp) Q s).
  { destruct (wp_result _ _ _ H)
      as (r & s' & Hrun & evs1 & evs2 & H1 & H2 & -> & -> & H3).
    by exists evs1, evs2. }
  destruct s as [fs0 tr [h0 gf cs0 su ti sr]]. simpl in Hh, Hcs. subst h0 cs0.
  unfold ready in Hready. simpl in Hready.
  destruct gf as [gf|]; [|done]. destruct su as [su|]; [|done].
  destruct ti as [ti|]; [|done]. destruct sr as [sr|]; [|done].
  unfold asked in Hask.
  destruct (uploaded_file inp) as [uf|] eqn:Huf; [|done].
  destruct (user_question inp) as [q0|] eqn:Hq; [|done].
  destruct (PyStr.truthy q0) eqn:Ht; [|done].
  injection Hask as ->.
  unfold script, col1, show_document. rewrite Huf, Hq, Ht. cbn [trace].
  repeat wp_step.
  unfold after_events. cbn [fs trace session app].
  lazymatch goal with
  | |- wp (ask env q) _ ?s0 =>
      unfold wp at 1; rewrite (ask_exact env q s0 h cs eq_refl eq_refl)
  end.
  cbn [fst snd].
  unfold Q, after_question, turn_reply, conversation_after.
  cbn [fs trace session chat_session calls is_call service_of].
  set (drawn := [EvUi (Spinner "Generating response...");
                 EvUi (StWrite ("**Generated Title:** " +:+ ti));
                 EvUi (StWrite su); EvUi (Expander "PDF Summary");
                 EvUi (StSuccess "PDF processed successfully!");
                 EvUi (Subheader "Chat Interface")]).
  destruct (chat_send_message env (calls SvSend tr) cs q) as [resp|e];
    [destruct (text resp) as [t|e]|].
  - eapply wp_display_then_col2; [reflexivity|]. intros evs Hui.
    exists drawn, evs. by repeat split.
  - exists drawn, []. by repeat split.
  - exists drawn, []. by repeat split.
Qed.

(** One run in the READY state without a question: it ends well and only
    draws. *)
Lemma script_ready_idle env (fuel : nat) (inp : Input) (s : State) :
  ready (session s) = true ->
  asked inp = None ->
  exists evs,
    forallb is_ui evs = true /\
    script env fuel inp s = (Val tt, after_events s evs).
Proof.
  intros Hready Hask.
  destruct s as [fs0 tr [h gf cs su ti sr]]. unfold ready in Hready. simpl in Hready.
  destruct h as [h|]; [|done]. destruct gf as [gf|]; [|done].
  destruct cs as [cs|]; [|done]. destruct su as [su|]; [|done].
  destruct ti as [ti|]; [|done]. destruct sr as [sr|]; [|done].
  destruct (uploaded_file inp) as [uf|] eqn:Huf.
  - pose (Q := fun (r : result unit) (s' : State) =>
      exists evs, forallb is_ui evs = true /\ r = Val tt /\
        s' = after_events
               (mk_State fs0 tr
                  (mk_SessionState (Some h) (Some gf) (Some cs) (Some su) (Some ti)
                                   (Some sr))) evs).
    enough (H : wp (script env fuel inp) Q
                   (mk_State fs0 tr
                      (mk_SessionState (Some h) (Some gf) (Some cs) (Some su)
                                       (Some ti) (Some sr)))).
    { destruct (wp_result _ _ _ H) as (r & s' & Hrun & evs & Hui & -> & ->).
      by exists evs. }
    unfold script, col1. rewrite Huf. repeat wp_step.
    lazymatch goal with
    | |- wp _ _ ?s0 =>
        apply (wp_bind_inv (show_document env inp) (fun _ => col2) Q s0);
        apply (wp_show_document_quiet env inp uf s0 su h Q Huf Hask eq_refl eq_refl)
    end.
    intros evs Hui. rewrite after_events_app. eexists. split; [|done].
    by rewrite forallb_app, Hui.
  - destruct inp as [uf0 q0]. simpl in Huf. subst uf0.
    destruct (run_without_file_ui env fuel q0
                (mk_State fs0 tr
                   (mk_SessionState (Some h) (Some gf) (Some cs) (Some su) (Some ti)
                                    (Some sr)))) as (evs & Hrun & Hui).
    exists evs. split; [exact Hui|]. exact Hrun.
Qed.

(** C2, as amended: in the READY state, a question whose turn fails ends
    that run with the exception, after one round trip and before the
    transcript and the side column are drawn.  The files, the document
    handle, summary, title and search results are as they were; the
    conversation is as the round trip left it, unchanged when
    [send_message] raised; the session is READY.  ChatHistory keeps the
    question that got no reply.  A later run without a question ends well
    and only draws; a later question goes as any question does, and its
    turns come after the unanswered one. *)
Theorem failed_turn_keeps_session env (fuel : nat) (s : State) (inp : Input)
  (q : string) (e : exn) (h : list Message) (cs : ChatSession) :
  ready (session s) = true ->
  chat_history (session s) = Some h ->
  chat_session (session s) = Some cs ->
  asked inp = Some q ->
  turn_reply env s q = Raises e ->
  exists s1,
    script env fuel inp s = (Exc e, s1) /\
    (exists evs, forallb is_ui evs = true /\
                 trace s1 = (EvSendMessage q :: evs ++ trace s)%list) /\
    fs s1 = fs s /\
    session s1 =
      set_chat_history (h ++ [user_turn q])
        (set_chat_session (conversation_after env s cs q) (session s)) /\
    (forall e', chat_send_message env (calls SvSend (trace s)) cs q = Raises e' ->
       chat_session (session s1) = Some cs) /\
    ready (session s1) = true /\
    (forall fuel1 inp1,
       asked inp1 = None ->
       exists evs, forallb is_ui evs = true /\
                   script env fuel1 inp1 s1 = (Val tt, after_events s1 evs)) /\
    (forall fuel1 inp1 q1,
       asked inp1 = Some q1 ->
       exists s2,
         script env fuel1 inp1 s1 =
           (match turn_reply env s1 q1 with
            | Returns _ => Val tt
            | Raises e1 => Exc e1
            end, s2) /\
         fs s2 = fs s /\
         session s2 =
           set_chat_history
             (h ++ user_turn q :: user_turn q1 ::
                match turn_reply env s1 q1 with
                | Returns t => [assistant_turn t]
                | Raises _ => []
                end)
             (set_chat_session
                (conversation_after env s1 (conversation_after env s cs q) q1)
                (session s))).
Proof.
  intros Hready Hh Hcs Hask Hfail.
  destruct (script_ready_question env fuel inp s q h cs Hready Hh Hcs Hask)
    as (evs1 & evs2 & Hui1 & Hui2 & Hrun & Hnil).
  rewrite (Hnil e Hfail) in Hrun. unfold after_question in Hrun.
  rewrite Hfail in Hrun. cbn [app] in Hrun.
  destruct s as [fs0 tr [h0 gf cs0 su ti sr]]. simpl in Hh, Hcs. subst h0 cs0.
  unfold ready in Hready. simpl in Hready.
  destruct gf as [gf|]; [|done]. destruct su as [su|]; [|done].
  destruct ti as [ti|]; [|done]. destruct sr as [sr|]; [|done].
  cbn [fs trace session] in *.
  eexists. split; [exact Hrun|]. cbn [fs trace session].
  split; [by exists evs1|]. split; [done|]. split; [done|]. split.
  { intros e' He'. unfold conversation_after. cbn [trace]. by rewrite He'. }
  split; [done|]. split.
  - intros fuel1 inp1 Hask1. by apply script_ready_idle.
  - intros fuel1 inp1 q1 Hask1.
    lazymatch goal with
    | |- context [script env fuel1 inp1 ?s1] =>
        destruct (script_ready_question env fuel1 inp1 s1 q1
                    (h ++ [user_turn q])
                    (conversation_after env
                       (mk_State fs0 tr
                          (mk_SessionState (Some h) (Some gf) (Some cs) (Some su)
                                           (Some ti) (Some sr))) cs q)
                    eq_refl eq_refl eq_refl Hask1)
          as (evs3 & evs4 & _ & _ & Hrun1 & _)
    end.
    eexists. split; [exact Hrun1|]. cbn [fs]. split; [done|].
    unfold after_question. cbn [session].
    unfold set_chat_history, set_chat_session. cbn.
    by rewrite <- app_assoc.
Qed.

(** C8, as amended: in the READY state, one question adds the user's turn
    to ChatHistory and, when the chat turn brings a reply, the assistant's
    reply after it: exactly one user turn and one assistant reply.  When the
    chat turn fails the run ends with its exception and the user's turn is
    all that is added.  In both cases the stored document, DocumentSummary,
    DocumentTitle, SearchResultSet and the files are as they were. *)
Theorem question_appends_turns env (fuel : nat) (s : State) (inp : Input)
  (q : string) (h : list Message) :
  ready (session s) = true ->
  chat_history (session s) = Some h ->
  asked inp = Some q ->
  exists s1,
    script env fuel inp s =
      (match turn_reply env s q with
       | Returns _ => Val tt
       | Raises e => Exc e
       end, s1) /\
    chat_history (session s1) =
      Some (h ++ match turn_reply env s q with
                 | Returns t => [user_turn q; assistant_turn t]
                 | Raises _ => [user_turn q]
                 end)%list /\
    pdf_summary (session s1) = pdf_summary (session s) /\
    pdf_title (session s1) = pdf_title (session s) /\
    search_results (session s1) = search_results (session s) /\
    gemini_file (session s1) = gemini_file (session s) /\
    fs s1 = fs s.
Proof.
  intros Hready Hh Hask.
  assert (Hcs : exists cs, chat_session (session s) = Some cs).
  { unfold ready in Hready. rewrite Hh in Hready.
    destruct (gemini_file (session s)), (chat_session (session s)); try done.
    by eexists. }
  destruct Hcs as [cs Hcs].
  destruct (script_ready_question env fuel inp s q h cs Hready Hh Hcs Hask)
    as (evs1 & evs2 & _ & _ & Hrun & _).
  eexists. split; [exact Hrun|]. unfold after_question. cbn.
  repeat split. by destruct (turn_reply env s q).
Qed.

(** ** Witnesses and counterexamples of the chat turn *)

(** C2 fails as stated: in the READY session of the demonstration the
    question "What broke?" fails, and its turn stays in ChatHistory with no
    reply; the question asked after it is answered, and the history it
    leaves is not the one it would have left without the failed turn. *)
Lemma failed_turn_stays_in_history :
  let s := Demo.ready_state in
  let failed := mk_Input (Some Demo.pdf_a) (Some "What broke?") in
  let later := mk_Input (Some Demo.pdf_a) (Some "What year is this?") in
  let s1 := (script Demo.env 5 failed s).2 in
  ready (session s) = true /\
  turn_reply Demo.env s "What broke?" = Raises Demo.quota /\
  chat_history (session s) = Some [] /\
  chat_history (session s1) = Some [user_turn "What broke?"] /\
  chat_history (session (script Demo.env 5 later s1).2) =
    Some [user_turn "What broke?"; user_turn "What year is this?";
          assistant_turn "It is from 2024."] /\
  chat_history (session (script Demo.env 5 later s).2) =
    Some [user_turn "What year is this?"; assistant_turn "It is from 2024."] /\
  ~ failed_turn_leaves_no_trace Demo.env 5 s failed [] /\
  ~ failed_turn_leaves_no_trace Demo.env 5 s failed [later].
Proof.
  vm_compute. repeat split; intros H; discriminate H.
Qed.

Lemma failed_turn_keeps_session_witness :
  let s := Demo.ready_state in
  exists s1,
    script Demo.env 5 (mk_Input (Some Demo.pdf_a) (Some "What broke?")) s
      = (Exc Demo.quota, s1) /\
    (exists evs, forallb is_ui evs = true /\
                 trace s1 = (EvSendMessage "What broke?" :: evs ++ trace s)%list) /\
    fs s1 = fs s /\
    session s1 = set_chat_history [user_turn "What broke?"] (session s) /\
    (forall e',
       chat_send_message Demo.env (calls SvSend (trace s)) Demo.conversation
         "What broke?" = Raises e' ->
       chat_session (session s1) = Some Demo.conversation) /\
    ready (session s1) = true /\
    (forall fuel1 inp1,
       asked inp1 = None ->
       exists evs, forallb is_ui evs = true /\
                   script Demo.env fuel1 inp1 s1 = (Val tt, after_events s1 evs)) /\
    (forall fuel1 inp1 q1,
       asked inp1 = Some q1 ->
       exists s2,
         script Demo.env fuel1 inp1 s1 =
           (match turn_reply Demo.env s1 q1 with
            | Returns _ => Val tt
            | Raises e1 => Exc e1
            end, s2) /\
         fs s2 = fs s /\
         session s2 =
           set_chat_history
             (user_turn "What broke?" :: user_turn q1 ::
                match turn_reply Demo.env s1 q1 with
                | Returns t => [assistant_turn t]
                | Raises _ => []
                end)
             (set_chat_session
                (conversation_after Demo.env s1 Demo.conversation q1)
                (session s))).
Proof.
  intros s.
  apply (failed_turn_keeps_session Demo.env 5 s
           (mk_Input (Some Demo.pdf_a) (Some "What broke?"))
           "What broke?" Demo.quota [] Demo.conversation); reflexivity.
Defined.

(** C8 fails as stated: in the READY session of the demonstration the
    question "What broke?" adds its user turn and no assistant reply. *)
Lemma failed_question_appends_no_reply :
  let s := Demo.ready_state in
  let s1 := (script Demo.env 5 (mk_Input (Some Demo.pdf_a) (Some "What broke?")) s).2 in
  ready (session s) = true /\
  chat_history (session s) = Some [] /\
  chat_history (session s1) = Some [user_turn "What broke?"] /\
  ~ appended_exchange (chat_history (session s)) (chat_history (session s1))
      "What broke?".
Proof.
  vm_compute. repeat split. intros (h & t & Hb & Ha).
  injection Hb as <-. discriminate Ha.
Qed.

Lemma question_appends_turns_witness :
  let s := Demo.ready_state in
  exists s1,
    script Demo.env 5 (mk_Input (Some Demo.pdf_a) (Some "What year is this?")) s
      = (Val tt, s1) /\
    chat_history (session s1) =
      Some [user_turn "What year is this?"; assistant_turn "It is from 2024."] /\
    pdf_summary (session s1) = pdf_summary (session s) /\
    pdf_title (session s1) = pdf_title (session s) /\
    search_results (session s1) = search_results (session s) /\
    gemini_file (session s1) = gemini_file (session s) /\
    fs s1 = fs s.
Proof.
  intros s.
  apply (question_appends_turns Demo.env 5 s
           (mk_Input (Some Demo.pdf_a) (Some "What year is this?"))
           "What year is this?" []); reflexivity.
Defined.
